(** * shell-ai-ask: conversation history, provider adapters and the adapter factory

    A shallow embedding of [conversation.py], [models.py] and the part of
    [config.py] that [models.get_model_instance] goes through.

    The message dicts of a conversation are mutated through references, so
    they live in an explicit store and the history is a list of references
    into it; a function that writes the configuration returns it as the
    call leaves it. The outside of the program (the HTTP exchange, the JSON
    and UTF-8 decoders, the environment, the file system) and the Unicode
    case mappings of the interpreter are arguments. What the adapters and
    the factory print besides what they return is left out. *)

From Stdlib Require Import ZArith String Ascii List Lia.
From Stdlib Require Import Floats.SpecFloat.
From stdpp Require Import base option list gmap strings pretty.

Set Warnings "-register-all".

Local Open Scope string_scope.
Local Open Scope list_scope.

(** ** The Python values and operations the program uses *)

Module Py.

(** What a call leaves to its caller: a value, or a raised exception
    (its [str(e)], with the texts of CPython 3.11). *)
Inductive result (A : Type) : Type :=
| Ok (a : A)
| Raise (e : string).
Arguments Ok {A} a.
Arguments Raise {A} e.

Definition bind {A B : Type} (r : result A) (k : A -> result B) : result B :=
  match r with
  | Ok a => k a
  | Raise e => Raise e
  end.

Notation "x <- r ;; k" := (bind r (fun x => k))
  (at level 100, r at next level, right associativity).

(** A generator, run to its end: what it yields, in order, and the
    exception that ends it when it does not end by returning. Its body
    runs when it is consumed, not when the generator function is called:
    an exception of the body reaches the consumer, not the creator. *)
Record generator (A : Type) := mkGenerator {
  yielded : list A;
  raised : option string
}.
Arguments mkGenerator {A} yielded raised.
Arguments yielded {A} g.
Arguments raised {A} g.

Definition gen_return {A : Type} : generator A := mkGenerator [] None.
Definition gen_raise {A : Type} (e : string) : generator A :=
  mkGenerator [] (Some e).
Definition gen_yield {A : Type} (a : A) (g : generator A) : generator A :=
  mkGenerator (a :: yielded g) (raised g).

Section Slice.
Context {A : Type}.

(** [l[i:]] for an int [i]: a negative [i] counts from the end and is
    clamped at the start of the list, a non-negative one is clamped at its
    end. [-0] is [0], so [l[-0:]] is the whole list. *)
Definition slice_from (i : Z) (l : list A) : list A :=
  let n := Z.of_nat (length l) in
  let start := if (i <? 0)%Z then Z.max (n + i) 0 else Z.min i n in
  drop (Z.to_nat start) l.
End Slice.

(** The values [json.loads] builds: a JSON number without fraction and
    exponent is an int, every other one (and [NaN], [Infinity]) is a float,
    an IEEE 754 double. *)
Inductive value : Type :=
| VNone
| VBool (b : bool)
| VInt (n : Z)
| VFloat (x : spec_float)
| VStr (s : string)
| VList (xs : list value)
| VDict (kv : gmap string value).

(** [type(v).__name__] *)
Definition type_name (v : value) : string :=
  match v with
  | VNone => "NoneType"
  | VBool _ => "bool"
  | VInt _ => "int"
  | VFloat _ => "float"
  | VStr _ => "str"
  | VList _ => "list"
  | VDict _ => "dict"
  end.

(** How the [TypeError] of a built-in method that wants a str names what
    it got: the type's name, and [None] for [None]. *)
Definition arg_type_name (v : value) : string :=
  match v with
  | VNone => "None"
  | _ => type_name v
  end.

(** [bool(v)]; a float is false when it is [0.0] or [-0.0], and [nan] is
    true. *)
Definition truthy (v : value) : bool :=
  match v with
  | VNone => false
  | VBool b => b
  | VInt n => negb (n =? 0)%Z
  | VFloat (S754_zero _) => false
  | VFloat _ => true
  | VStr s => negb (String.eqb s "")
  | VList xs => negb (Nat.eqb (length xs) 0)
  | VDict kv => negb (Nat.eqb (size kv) 0)
  end.

Definition is_str (k : string) (v : value) : bool :=
  match v with
  | VStr s => String.eqb s k
  | _ => false
  end.

(** [k in v] for a str [k] *)
Definition contains (k : string) (v : value) : result bool :=
  match v with
  | VDict kv => Ok (bool_decide (is_Some (kv !! k)))
  | VList xs => Ok (existsb (is_str k) xs)
  | VStr s => Ok (bool_decide (is_Some (String.index 0 k s)))
  | _ => Raise ("argument of type '" +:+ type_name v +:+ "' is not iterable")
  end.

(** [len(v)] *)
Definition len (v : value) : result nat :=
  match v with
  | VDict kv => Ok (size kv)
  | VList xs => Ok (length xs)
  | VStr s => Ok (String.length s)
  | _ => Raise ("object of type '" +:+ type_name v +:+ "' has no len()")
  end.

(** [v[k]] for a str [k] *)
Definition getitem (k : string) (v : value) : result value :=
  match v with
  | VDict kv =>
      match kv !! k with
      | Some x => Ok x
      | None => Raise ("'" +:+ k +:+ "'")
      end
  | VList _ => Raise "list indices must be integers or slices, not str"
  | VStr _ => Raise "string indices must be integers, not 'str'"
  | _ => Raise ("'" +:+ type_name v +:+ "' object is not subscriptable")
  end.

(** [v[0]]; the keys of a decoded JSON object are strs, never [0] *)
Definition getitem0 (v : value) : result value :=
  match v with
  | VList (x :: _) => Ok x
  | VList [] => Raise "list index out of range"
  | VStr (String c _) => Ok (VStr (String c ""))
  | VStr "" => Raise "string index out of range"
  | VDict _ => Raise "0"
  | _ => Raise ("'" +:+ type_name v +:+ "' object is not subscriptable")
  end.

(** [v.get(k, d)] *)
Definition get (k : string) (d : value) (v : value) : result value :=
  match v with
  | VDict kv => Ok (default d (kv !! k))
  | _ => Raise ("'" +:+ type_name v +:+ "' object has no attribute 'get'")
  end.

(** ["".join(parts)] *)
Definition join (parts : list string) : string :=
  foldr String.append "" parts.

Definition upper_ascii (c : ascii) : ascii :=
  let n := N_of_ascii c in
  if ((97 <=? n) && (n <=? 122))%N then ascii_of_N (n - 32) else c.

Definition lower_ascii (c : ascii) : ascii :=
  let n := N_of_ascii c in
  if ((65 <=? n) && (n <=? 90))%N then ascii_of_N (n + 32) else c.

Fixpoint map_ascii (f : ascii -> ascii) (s : string) : string :=
  match s with
  | EmptyString => EmptyString
  | String c s' => String (f c) (map_ascii f s')
  end.

Definition is_ascii (s : string) : bool :=
  forallb (fun c => (N_of_ascii c <? 128)%N) (list_ascii_of_string s).

(** [s.upper()] and [s.lower()] are the case mappings of Unicode
    (["modèle".upper()] is ["MODÈLE"], the Kelvin sign is lowered to [k]).
    The strs are UTF-8 texts here, and what the mappings do to a text is
    the interpreter's table: they are an argument of what uses them. On a
    text that is all ASCII they change the ASCII letters and nothing
    else. *)
Class Str := {
  upper : string -> string;
  lower : string -> string;
  upper_ascii_text (s : string) :
    is_ascii s = true -> upper s = map_ascii upper_ascii s;
  lower_ascii_text (s : string) :
    is_ascii s = true -> lower s = map_ascii lower_ascii s
}.

End Py.

(** ** config.py *)

Module config.
Import Py.

(** [Config.config], the dict read from the configuration file; each
    provider entry is a dict of string fields. *)
Record Config := mkConfig {
  default_model : string;
  models : gmap string (gmap string string);
  proxy : gmap string value;
  max_history : Z;
  stream_output : bool
}.

(** [models.get(model_name, {})]: the stored dict itself when the name has
    an entry, a new empty dict when it has none. *)
Definition get_model_config (model_name : string) (self : Config)
  : gmap string string :=
  default ∅ (models self !! model_name).

End config.

(** ** models.py *)

Module models.
Import Py.

(** A message dict [{"role": role, "content": content}]. *)
Record Message := mkMessage { role : string; content : value }.

Definition message_value (m : Message) : value :=
  VDict (<["role" := VStr (role m)]> (<["content" := content m]> ∅)).

(** [BaseModel.generate]'s documented return: a generator when [stream]
    is true and the whole reply when it is false. *)
Definition reply (stream : bool) : Type :=
  if stream then generator value else value.

Class BaseModel (M : Type) := {
  generate : M -> list Message -> forall stream : bool, result (reply stream)
}.

(** What [requests.post] is called with and what it returns. *)
Record Request := mkRequest {
  url : string;
  headers : list (string * string);
  json : gmap string value;
  stream : bool;
  proxies : gmap string value
}.

(** [iter_lines] is [response.iter_lines()], a generator over the body
    as it arrives: the lines it delivers and, when the connection breaks
    before the body ends, the exception it then raises. *)
Record Response := mkResponse {
  status_code : Z;
  text : string;
  iter_lines : generator string
}.

(** The world outside the program: the HTTP exchange ([requests.post]
    returns a response or raises), [json.loads] and [bytes.decode]. *)
Class World := {
  post : Request -> result Response;
  json_loads : string -> result value;
  decode_utf8 : string -> result string
}.

(** The attributes [BaseModel.__init__] sets. *)
Record Attrs := mkAttrs {
  config : gmap string string;
  api_key : string;
  model_name : string;
  api_base : string;
  proxy_config : gmap string value
}.

Definition init (config : gmap string string) (proxy_config : gmap string value)
  : Attrs :=
  {| config := config;
     api_key := default "" (config !! "api_key");
     model_name := default "" (config !! "model");
     api_base := default "" (config !! "api_base");
     proxy_config := proxy_config |}.

Definition get_proxies (self : Attrs) : gmap string value :=
  if negb (truthy (default (VBool false) (proxy_config self !! "enabled")))
  then ∅
  else
    let proxies : gmap string value := ∅ in
    let proxies :=
      match proxy_config self !! "http" with
      | Some http_proxy =>
          if truthy http_proxy then <["http" := http_proxy]> proxies
          else proxies
      | None => proxies
      end in
    match proxy_config self !! "https" with
    | Some https_proxy =>
        if truthy https_proxy then <["https" := https_proxy]> proxies
        else proxies
    | None => proxies
    end.

Definition bearer_headers (self : Attrs) : list (string * string) :=
  [("Content-Type", "application/json");
   ("Authorization", "Bearer " +:+ api_key self)].

(** [response.json()] *)
Definition response_json `{World} (r : Response) : result value :=
  json_loads (text r).

Definition status_error (r : Response) : string :=
  "API请求失败：" +:+ pretty (status_code r) +:+ " " +:+ text r.

Definition parse_error (e : string) : string := "解析响应时出错：" +:+ e.

(** [choices[0].delta.content] read as a path into the decoded object, the
    way the wire format is described; [delta_content] below is what the
    code does. *)
Definition choices0_delta_content (data : value) : option value :=
  match data with
  | VDict kv =>
      match kv !! "choices" with
      | Some (VList (VDict choice :: _)) =>
          match choice !! "delta" with
          | Some (VDict delta) => delta !! "content"
          | _ => None
          end
      | _ => None
      end
  | _ => None
  end.

Module OpenAIModel.
Section Methods.
Context `{World}.

(** The body of the [try] of the streaming loop: the fragment the
    line's object gives, if any. *)
Definition delta_content (data : value) : result (option value) :=
  has <- contains "choices" data;;
  if has : bool then
    choices <- getitem "choices" data;;
    n <- len choices;;
    if (0 <? n)%nat then
      choice <- getitem0 choices;;
      delta <- get "delta" (VDict ∅) choice;;
      content <- get "content" VNone delta;;
      if truthy content then Ok (Some content) else Ok None
    else Ok None
  else Ok None.

(** [line[6:]] after [line.startswith('data: ')] *)
Definition strip_data (line : string) : string :=
  if String.prefix "data: " line
  then String.substring 6 (String.length line - 6) line
  else line.

(** The [for line in response.iter_lines()] loop, over the lines the
    iterator delivers and what ends it ([stop]: the exception it raises, if
    any). The [for] statement is outside every [try], so an exception of
    the iterator ends the generator, unless the loop has left before. *)
Fixpoint stream_lines (lines : list string) (stop : option string)
  : generator value :=
  match lines with
  | [] =>
      match stop with
      | Some e => gen_raise e
      | None => gen_return
      end
  | line :: rest =>
      if String.eqb line "" then stream_lines rest stop
      else
        match decode_utf8 line with
        | Raise e => gen_raise e
        | Ok line =>
            let line := strip_data line in
            if String.eqb line "[DONE]" then gen_return
            else
              match (data <- json_loads line;; delta_content data) with
              | Ok (Some content) => gen_yield content (stream_lines rest stop)
              | Ok None => stream_lines rest stop
              | Raise _ => stream_lines rest stop
              end
        end
  end.

Definition _stream_generate (self : Attrs) (headers : list (string * string))
    (data : gmap string value) : generator value :=
  match post {| url := api_base self +:+ "/chat/completions";
                headers := headers; json := data; stream := true;
                proxies := get_proxies self |} with
  | Raise e => gen_raise e
  | Ok response =>
      if negb (status_code response =? 200)%Z then
        gen_yield (VStr (status_error response)) gen_return
      else stream_lines (yielded (iter_lines response))
                        (raised (iter_lines response))
  end.

(** The body of the [try] of [_non_stream_generate]. *)
Definition message_content (response : Response) : result value :=
  data <- response_json response;;
  has <- contains "choices" data;;
  if has : bool then
    choices <- getitem "choices" data;;
    n <- len choices;;
    if (0 <? n)%nat then
      choice <- getitem0 choices;;
      message <- getitem "message" choice;;
      getitem "content" message
    else Ok (VStr "")
  else Ok (VStr "").

Definition _non_stream_generate (self : Attrs)
    (headers : list (string * string)) (data : gmap string value)
  : result value :=
  let data := <["stream" := VBool false]> data in
  response <- post {| url := api_base self +:+ "/chat/completions";
                      headers := headers; json := data; stream := false;
                      proxies := get_proxies self |};;
  if negb (status_code response =? 200)%Z then
    Ok (VStr (status_error response))
  else
    match message_content response with
    | Ok v => Ok v
    | Raise e => Ok (VStr (parse_error e))
    end.

(** [generate]: the call of [_stream_generate] only makes the
    generator, so nothing of its body is inside the [try]. *)
Definition generate (self : Attrs) (messages : list Message)
    (stream : bool) : result (reply stream) :=
  let headers := bearer_headers self in
  let data : gmap string value :=
    <["model" := VStr (model_name self)]>
      (<["messages" := VList (message_value <$> messages)]>
         (<["stream" := VBool stream]> ∅)) in
  match stream return result (reply stream) with
  | true => Ok (_stream_generate self headers data)
  | false =>
      match _non_stream_generate self headers data with
      | Ok v => Ok v
      | Raise e => Ok (VStr ("OpenAI API请求失败：" +:+ e))
      end
  end.
End Methods.
End OpenAIModel.

Module QwenModel.
Section Methods.
Context `{World}.

Definition output_text (data : value) : result value :=
  output <- get "output" (VDict ∅) data;;
  get "text" (VStr "") output.

(** The [for line in response.iter_lines()] loop, as above; here the
    decoding is inside the [try] and nothing leaves the loop early. *)
Fixpoint stream_lines (lines : list string) (stop : option string)
  : generator value :=
  match lines with
  | [] =>
      match stop with
      | Some e => gen_raise e
      | None => gen_return
      end
  | line :: rest =>
      if String.eqb line "" then stream_lines rest stop
      else
        match (line <- decode_utf8 line;;
               data <- json_loads line;;
               output_text data) with
        | Ok text =>
            if truthy text then gen_yield text (stream_lines rest stop)
            else stream_lines rest stop
        | Raise _ => stream_lines rest stop
        end
  end.

Definition endpoint (self : Attrs) : string :=
  api_base self +:+ "/services/aigc/text-generation/generation".

Definition _stream_generate (self : Attrs) (headers : list (string * string))
    (data : gmap string value) : generator value :=
  match post {| url := endpoint self;
                headers := headers; json := data; stream := true;
                proxies := get_proxies self |} with
  | Raise e => gen_raise e
  | Ok response =>
      if negb (status_code response =? 200)%Z then
        gen_yield (VStr (status_error response)) gen_return
      else stream_lines (yielded (iter_lines response))
                        (raised (iter_lines response))
  end.

Definition _non_stream_generate (self : Attrs)
    (headers : list (string * string)) (data : gmap string value)
  : result value :=
  response <- post {| url := endpoint self;
                      headers := headers; json := data; stream := false;
                      proxies := get_proxies self |};;
  if negb (status_code response =? 200)%Z then
    Ok (VStr (status_error response))
  else
    match (data <- response_json response;; output_text data) with
    | Ok v => Ok v
    | Raise e => Ok (VStr (parse_error e))
    end.

Definition generate (self : Attrs) (messages : list Message)
    (stream : bool) : result (reply stream) :=
  let headers := bearer_headers self in
  let data : gmap string value :=
    <["model" := VStr (model_name self)]>
      (<["input" :=
           VDict (<["messages" := VList (message_value <$> messages)]> ∅)]>
         (<["parameters" :=
              VDict (<["stream" := VBool stream]> ∅)]> ∅)) in
  match stream return result (reply stream) with
  | true => Ok (_stream_generate self headers data)
  | false =>
      match _non_stream_generate self headers data with
      | Ok v => Ok v
      | Raise e => Ok (VStr ("通义千问API请求失败：" +:+ e))
      end
  end.
End Methods.
End QwenModel.

(** The three adapter classes; [DeepSeekModel] inherits every method of
    [OpenAIModel]. *)
Inductive Model : Type :=
| OpenAI (self : Attrs)
| DeepSeek (self : Attrs)
| Qwen (self : Attrs).

Definition Model_generate `{World} (m : Model) (messages : list Message)
    (stream : bool) : result (reply stream) :=
  match m with
  | OpenAI self => OpenAIModel.generate self messages stream
  | DeepSeek self => OpenAIModel.generate self messages stream
  | Qwen self => QwenModel.generate self messages stream
  end.

#[export] Instance Model_BaseModel `{World} : BaseModel Model :=
  {| generate := Model_generate |}.

(** [model_config["api_key"] = api_key]: [model_config] is the dict stored
    under [model_name], so the assignment writes the configuration. *)
Definition store_api_key (model_name api_key : string) (cfg : config.Config)
  : config.Config :=
  {| config.default_model := config.default_model cfg;
     config.models :=
       <[model_name :=
           <["api_key" := api_key]> (config.get_model_config model_name cfg)]>
         (config.models cfg);
     config.proxy := config.proxy cfg;
     config.max_history := config.max_history cfg;
     config.stream_output := config.stream_output cfg |}.

(** [not s] for an optional str: the result of [dict.get] *)
Definition falsy (s : option string) : bool :=
  match s with
  | None => true
  | Some s => String.eqb s ""
  end.

Section Factory.
Context `{Str}.

(** [get_model_instance], with [os.environ] as [environ]; returns the
    adapter, if any, and the configuration object as the call leaves it. *)
Definition get_model_instance (environ : gmap string string)
    (model_name : string) (cfg : config.Config)
  : option Model * config.Config :=
  let model_config := config.get_model_config model_name cfg in
  if bool_decide (model_config = ∅) then (None, cfg)
  else
    let keyed : option (gmap string string * config.Config) :=
      if falsy (model_config !! "api_key") then
        let env_var_name := upper model_name +:+ "_API_KEY" in
        let api_key := environ !! env_var_name in
        if negb (falsy api_key) then
          Some (<["api_key" := default "" api_key]> model_config,
                store_api_key model_name (default "" api_key) cfg)
        else None
      else Some (model_config, cfg) in
    match keyed with
    | None => (None, cfg)
    | Some (model_config, cfg) =>
        let proxy_config := config.proxy cfg in
        if String.eqb (lower model_name) "openai" then
          (Some (OpenAI (init model_config proxy_config)), cfg)
        else if String.eqb (lower model_name) "deepseek" then
          (Some (DeepSeek (init model_config proxy_config)), cfg)
        else if String.eqb (lower model_name) "qwen" then
          (Some (Qwen (init model_config proxy_config)), cfg)
        else (None, cfg)
    end.

(** The key a provider can get, in the words of the factory's contract: the
    stored one when it is not empty, else the non-empty value of the
    environment variable [NAME_API_KEY]. *)
Definition stored_key (entry : gmap string string) : option string :=
  match entry !! "api_key" with
  | Some k => if String.eqb k "" then None else Some k
  | None => None
  end.

Definition environ_key (environ : gmap string string) (model_name : string)
  : option string :=
  match environ !! (upper model_name +:+ "_API_KEY") with
  | Some k => if String.eqb k "" then None else Some k
  | None => None
  end.

Definition available_key (environ : gmap string string) (model_name : string)
    (entry : gmap string string) : option string :=
  match stored_key entry with
  | Some k => Some k
  | None => environ_key environ model_name
  end.

End Factory.

Definition attrs_of (m : Model) : Attrs :=
  match m with
  | OpenAI self | DeepSeek self | Qwen self => self
  end.

Definition family_name (m : Model) : string :=
  match m with
  | OpenAI _ => "openai"
  | DeepSeek _ => "deepseek"
  | Qwen _ => "qwen"
  end.

End models.

(** ** conversation.py *)

Module conversation.

(** The identity of a dict object: its index in the store. *)
Abbreviation loc := nat.

Import Py models.

Section Conversation.
Context {M : Type} `{BaseModel M}.

(** [self.messages] is a list of references; [objects] is the store the
    references point into. *)
Record Conversation := mkConversation {
  model : M;
  max_history : Z;
  messages : list loc;
  objects : list Message
}.

Definition init (m : M) (mh : Z) : Conversation :=
  {| model := m; max_history := mh; messages := []; objects := [] |}.

Definition set_messages (st : Conversation) (ms : list loc) : Conversation :=
  {| model := model st; max_history := max_history st;
     messages := ms; objects := objects st |}.

(** The messages as [model.generate] and an inspection read them. *)
Definition history (st : Conversation) : list Message :=
  omap (fun l => objects st !! l) (messages st).

(** Every reference of the list points at an object. *)
Definition wf (st : Conversation) : Prop :=
  Forall (fun l => l < length (objects st)) (messages st).

(** [self.messages and self.messages[0]["role"] == "system"], with the
    reference [self.messages[0]] when it holds. *)
Definition pinned (st : Conversation) : option loc :=
  match messages st with
  | [] => None
  | l0 :: _ =>
      match objects st !! l0 with
      | Some m => if decide (role m = "system") then Some l0 else None
      | None => None
      end
  end.

Definition add_message (r : string) (c : value) (st : Conversation) : Conversation :=
  let st1 :=
    {| model := model st; max_history := max_history st;
       messages := messages st ++ [length (objects st)];
       objects := objects st ++ [mkMessage r c] |} in
  if (Z.of_nat (length (messages st1)) >? max_history st1)%Z then
    match pinned st1 with
    | Some l0 =>
        set_messages st1
          ([l0] ++ Py.slice_from (- (max_history st1 - 1)) (messages st1))
    | None =>
        set_messages st1 (Py.slice_from (- max_history st1) (messages st1))
    end
  else st1.

Definition clear_history (st : Conversation) : Conversation :=
  match pinned st with
  | Some l0 => set_messages st [l0]
  | None => set_messages st []
  end.

Definition set_system_message (c : value) (st : Conversation) : Conversation :=
  match pinned st with
  | Some l0 =>
      {| model := model st; max_history := max_history st;
         messages := messages st;
         objects := alter (fun m => mkMessage (role m) c) l0 (objects st) |}
  | None =>
      {| model := model st; max_history := max_history st;
         messages := length (objects st) :: messages st;
         objects := objects st ++ [mkMessage "system" c] |}
  end.

(** The streaming loop of [send_message]: each fragment is written to
    [sys.stdout] and then appended to [response_text];
    [sys.stdout.write] raises on what is not a str. Returns what was
    written and the loop's outcome. *)
Fixpoint drain (chunks : list value) (stop : option string)
    (written : list string) (response_text : string)
  : list string * result string :=
  match chunks with
  | [] =>
      match stop with
      | Some e => (written, Raise e)
      | None => (written, Ok response_text)
      end
  | VStr chunk :: rest =>
      drain rest stop (written ++ [chunk]) (response_text +:+ chunk)
  | v :: _ =>
      (written,
       Raise ("write() argument must be str, not " +:+ arg_type_name v))
  end.

(** [send_message]: what the call returns or raises, what it wrote to
    [sys.stdout], and the conversation it leaves. *)
Definition send_message (message : string) (stream : bool) (st : Conversation)
  : result (option value) * list string * Conversation :=
  let st1 := add_message "user" (VStr message) st in
  if stream then
    match generate (model st1) (history st1) true with
    | Raise e => (Raise e, [], st1)
    | Ok g =>
        match drain (yielded g) (raised g) [] "" with
        | (written, Raise e) => (Raise e, written, st1)
        | (written, Ok response_text) =>
            (Ok None, written,
             add_message "assistant" (VStr response_text) st1)
        end
    end
  else
    match generate (model st1) (history st1) false with
    | Raise e => (Raise e, [], st1)
    | Ok response_text =>
        (Ok (Some response_text), [],
         add_message "assistant" response_text st1)
    end.

(** The calls that change the history, and a run of them. *)
Inductive call : Type :=
| AddMessage (r : string) (c : value)
| SetSystemMessage (c : value)
| ClearHistory.

Definition step (st : Conversation) (k : call) : Conversation :=
  match k with
  | AddMessage r c => add_message r c st
  | SetSystemMessage c => set_system_message c st
  | ClearHistory => clear_history st
  end.

Definition run (calls : list call) (st : Conversation) : Conversation :=
  foldl step st calls.

(** A run of [add_message] calls. *)
Definition add_messages (calls : list (string * value)) (st : Conversation)
  : Conversation :=
  foldl (fun s rc => add_message rc.1 rc.2 s) st calls.

End Conversation.
Arguments Conversation M : clear implicits.

End conversation.

(** ** Fixtures *)

Module fixtures.
Import Py models.

(** A fixed fake server: it streams ["Hel"], ["lo"] and answers ["Hello"]
    when it is not streaming. *)
Inductive Hello : Type := hello.

Definition Hello_generate (self : Hello) (messages : list Message)
    (stream : bool) : result (reply stream) :=
  match stream return result (reply stream) with
  | true => Ok (mkGenerator [VStr "Hel"; VStr "lo"] None)
  | false => Ok (VStr "Hello")
  end.

#[global] Instance Hello_BaseModel : BaseModel Hello :=
  {| generate := Hello_generate |}.

(** The text of one streamed record [{"choices":[{"delta":{"content":s}}]}]
    and the object it decodes to. *)
Definition dq : string := String "034"%char EmptyString.

Definition delta_line (s : string) : string :=
  "data: {" +:+ dq +:+ "choices" +:+ dq +:+ ":[{" +:+ dq +:+ "delta" +:+ dq
  +:+ ":{" +:+ dq +:+ "content" +:+ dq +:+ ":" +:+ dq +:+ s +:+ dq +:+ "}}]}".

Definition delta_value (s : string) : value :=
  VDict {[ "choices" :=
             VList [VDict {[ "delta" := VDict {[ "content" := VStr s ]} ]}] ]}.

Definition no_json : string := "Expecting value: line 1 column 1 (char 0)".

(** A decoder that knows the records above and the empty object. *)
Definition fake_json_loads (line : string) : result value :=
  if String.eqb ("data: " +:+ line) (delta_line "Hel") then Ok (delta_value "Hel")
  else if String.eqb ("data: " +:+ line) (delta_line "lo") then Ok (delta_value "lo")
  else if String.eqb ("data: " +:+ line) (delta_line "late") then Ok (delta_value "late")
  else if String.eqb line "{}" then Ok (VDict ∅)
  else Raise no_json.

(** The world in which every request gets the outcome [outcome]; the
    lines are ASCII, so decoding them changes nothing. *)
Definition fake_world (outcome : result Response) : World :=
  {| post := fun _ => outcome;
     json_loads := fake_json_loads;
     decode_utf8 := fun line => Ok line |}.

Definition openai_entry (key : string) : gmap string string :=
  {[ "api_key" := key; "model" := "gpt-3.5-turbo";
     "api_base" := "https://api.openai.com/v1/" ]}.

Definition no_proxy : gmap string value :=
  {[ "enabled" := VBool false; "http" := VStr ""; "https" := VStr "" ]}.

(** A configuration with one provider, its key as given. *)
Definition one_provider (name : string) (entry : gmap string string)
  : config.Config :=
  {| config.default_model := "openai";
     config.models := {[ name := entry ]};
     config.proxy := no_proxy;
     config.max_history := 10;
     config.stream_output := true |}.

Definition openai_attrs : Attrs := init (openai_entry "sk-stored") no_proxy.

(** A streamed answer with a record after the sentinel, and an answer whose
    body is not JSON. *)
Definition sse_response : Response :=
  {| status_code := 200; text := "";
     iter_lines :=
       mkGenerator [delta_line "Hel"; delta_line "lo"; "data: [DONE]";
                    delta_line "late"] None |}.

Definition html_response : Response :=
  {| status_code := 200; text := "<html>"; iter_lines := gen_return |}.

(** The case mappings on ASCII text, for the provider names used below. *)
Definition ascii_case : Str :=
  {| upper := map_ascii upper_ascii;
     lower := map_ascii lower_ascii;
     upper_ascii_text := fun _ _ => eq_refl;
     lower_ascii_text := fun _ _ => eq_refl |}.

End fixtures.

(** ** config.py: the configuration as the file gives it *)

(** [config.Config] above is the typed reading [models.get_model_instance]
    goes through. Here [Config.config] is the dict as [json.load] returns
    it, with the file it is loaded from and saved to. A file into which a
    value was dumped whole holds that value ([json.load] gives back what
    [json.dump] wrote); a dump that breaks off leaves a truncated file. *)
Module config_file.
Import Py.

Definition provider (model api_base : string) : value :=
  VDict {[ "api_key" := VStr ""; "model" := VStr model;
           "api_base" := VStr api_base ]}.

(** [self.default_config], key by key in its order. *)
Definition default_items : list (string * value) :=
  [("default_model", VStr "openai");
   ("models",
    VDict {[ "openai" := provider "gpt-3.5-turbo" "https://api.openai.com/v1/";
             "deepseek" := provider "deepseek-chat" "https://api.deepseek.com/v1/";
             "qwen" := provider "qwen-max" "https://dashscope.aliyuncs.com/api/v1/" ]});
   ("proxy",
    VDict {[ "enabled" := VBool false; "http" := VStr ""; "https" := VStr "" ]});
   ("max_history", VInt 10);
   ("stream_output", VBool true)].

Definition default_config : value := VDict (list_to_map default_items).

(** [config[k] = v] *)
Definition setitem (k : string) (v : value) (config : value) : result value :=
  match config with
  | VDict kv => Ok (VDict (<[k := v]> kv))
  | VList _ => Raise "list indices must be integers or slices, not str"
  | _ => Raise ("'" +:+ type_name config
                +:+ "' object does not support item assignment")
  end.

(** What the program sees of the file system: whether the directory of
    the configuration file exists and what [os.makedirs] does if it is
    called; whether the file exists and, if so, what reading and decoding
    it gives; what [open(path, "w")] does; what [json.dump(v, f)] does on
    the file just opened (it raises when writing fails, as it does on an
    object it cannot encode), and what reading the truncated file gives
    when it broke off. *)
Record Files := mkFiles {
  dir_exists : bool;
  makedirs : result unit;
  file : option (result value);
  open_w : result unit;
  json_dump : value -> result unit;
  torn : value -> result value
}.

Definition with_dir (fs : Files) : Files :=
  {| dir_exists := true; makedirs := makedirs fs; file := file fs;
     open_w := open_w fs; json_dump := json_dump fs; torn := torn fs |}.

Definition with_content (content : result value) (fs : Files) : Files :=
  {| dir_exists := dir_exists fs; makedirs := makedirs fs;
     file := Some content; open_w := open_w fs;
     json_dump := json_dump fs; torn := torn fs |}.

Definition with_file (content : value) (fs : Files) : Files :=
  with_content (Ok content) fs.

(** [with open(path, "w") as f: json.dump(v, f, indent=4)]: opening
    truncates the file, and the dump then writes it whole or breaks off. *)
Definition write_json (v : value) (fs : Files) : result unit * Files :=
  match open_w fs with
  | Raise e => (Raise e, fs)
  | Ok _ =>
      match json_dump fs v with
      | Ok _ => (Ok tt, with_file v fs)
      | Raise e => (Raise e, with_content (torn fs v) fs)
      end
  end.

(** The loop of [_load_config] over [self.default_config.items()]. *)
Fixpoint fill (items : list (string * value)) (config : value) : result value :=
  match items with
  | [] => Ok config
  | (key, v) :: rest =>
      has <- contains key config;;
      config <- (if has : bool then Ok config else setitem key v config);;
      fill rest config
  end.

(** [_load_config]: the configuration, or the exception it lets through,
    and the files as it leaves them. *)
Definition _load_config (fs : Files) : result value * Files :=
  match (if dir_exists fs then Ok tt else makedirs fs) with
  | Raise e => (Raise e, fs)
  | Ok _ =>
      let fs := with_dir fs in
      match file fs with
      | None =>
          match write_json default_config fs with
          | (Raise e, fs) => (Raise e, fs)
          | (Ok _, fs) => (Ok default_config, fs)
          end
      | Some content =>
          match (config <- content;; fill default_items config) with
          | Ok config => (Ok config, fs)
          | Raise _ => (Ok default_config, fs)
          end
      end
  end.

(** [save_config]: a failure is caught (and printed); the file is as the
    failed write left it. *)
Definition save_config (config : value) (fs : Files) : Files :=
  (write_json config fs).2.

(** The properties. *)
Definition default_model (config : value) : result value :=
  get "default_model" (VStr "openai") config.

Definition max_history (config : value) : result value :=
  get "max_history" (VInt 10) config.

Definition stream_output (config : value) : result value :=
  get "stream_output" (VBool true) config.

Definition proxy (config : value) : result value :=
  get "proxy"
    (VDict {[ "enabled" := VBool false; "http" := VStr ""; "https" := VStr "" ]})
    config.

Definition get_model_config (model_name : string) (config : value)
  : result value :=
  models <- get "models" (VDict ∅) config;;
  get model_name (VDict ∅) models.

(** [set_model_config]: the configuration and the files it leaves, or the
    exception of an assignment that cannot be made. *)
Definition set_model_config (model_name : string) (entry : value)
    (config : value) (fs : Files) : result (value * Files) :=
  has <- contains "models" config;;
  config <- (if has : bool then Ok config
             else setitem "models" (VDict ∅) config);;
  models <- getitem "models" config;;
  models <- setitem model_name entry models;;
  config <- setitem "models" models config;;
  Ok (config, save_config config fs).

End config_file.

(** ** More fixtures *)

Module fixtures_more.
Import Py models.

(** A server whose stream breaks after one fragment, and whose plain answer
    is refused. *)
Inductive Flaky : Type := flaky.

Definition Flaky_generate (self : Flaky) (messages : list Message)
    (stream : bool) : result (reply stream) :=
  match stream return result (reply stream) with
  | true => Ok (mkGenerator [VStr "Hel"] (Some "Connection reset by peer"))
  | false => Raise "Connection refused"
  end.

#[global] Instance Flaky_BaseModel : BaseModel Flaky :=
  {| generate := Flaky_generate |}.

(** An adapter that answers with the number of messages it was given. *)
Inductive Counter : Type := counter.

Definition Counter_generate (self : Counter) (messages : list Message)
    (stream : bool) : result (reply stream) :=
  match stream return result (reply stream) with
  | true => Ok (mkGenerator [VStr (pretty (length messages))] None)
  | false => Ok (VStr (pretty (length messages)))
  end.

#[global] Instance Counter_BaseModel : BaseModel Counter :=
  {| generate := Counter_generate |}.

(** A configuration file that sets the default provider and has an empty
    [models], and a file system where everything can be written. *)
Definition sparse_file : gmap string value :=
  {[ "default_model" := VStr "qwen"; "models" := VDict ∅ ]}.

Definition files (content : option (result value)) : config_file.Files :=
  {| config_file.dir_exists := true; config_file.makedirs := Ok ();
     config_file.file := content; config_file.open_w := Ok ();
     config_file.json_dump := fun _ => Ok ();
     config_file.torn := fun _ => Raise fixtures.no_json |}.

(** The same with a disk that fills up while the file is written. *)
Definition full_disk (content : option (result value)) : config_file.Files :=
  {| config_file.dir_exists := true; config_file.makedirs := Ok ();
     config_file.file := content; config_file.open_w := Ok ();
     config_file.json_dump := fun _ => Raise "[Errno 28] No space left on device";
     config_file.torn := fun _ => Raise fixtures.no_json |}.

(** A server whose body breaks off after one record. *)
Definition broken_response : Response :=
  {| status_code := 200; text := "";
     iter_lines :=
       mkGenerator [fixtures.delta_line "Hel"]
         (Some "Connection broken: IncompleteRead") |}.

End fixtures_more.

(** ** Notions the properties are stated with *)

Module notions.
Import Py models.

(** The bound of the history, with the one overshoot
    [set_system_message] can leave. *)
Definition within_bound {M : Type} (st : conversation.Conversation M) : Prop :=
  (Z.of_nat (length (conversation.messages st)) <= conversation.max_history st)%Z
  \/ ((Z.of_nat (length (conversation.messages st))
       = conversation.max_history st + 1)%Z
      /\ is_Some (conversation.pinned st)).

(** The adapter class a provider name selects, as the chain of
    comparisons at the end of [get_model_instance] does. *)
Definition dispatch `{Str} (name : string) (entry : gmap string string)
    (proxy_config : gmap string value) : option Model :=
  if String.eqb (lower name) "openai" then Some (OpenAI (init entry proxy_config))
  else if String.eqb (lower name) "deepseek"
  then Some (DeepSeek (init entry proxy_config))
  else if String.eqb (lower name) "qwen"
  then Some (Qwen (init entry proxy_config))
  else None.

(** The content the system message has after a run of calls: the one of
    the last [set_system_message], the one it had when there is none. *)
Definition last_system_content (calls : list conversation.call) (c0 : value)
  : value :=
  foldl (fun c k =>
           match k with
           | conversation.SetSystemMessage c' => c'
           | _ => c
           end) c0 calls.

End notions.

(** * Properties *)

(** ** Slices *)

Module Py_facts.
Import Py.

Section Slice.
Context {A : Type}.
Implicit Types (l : list A) (k : Z).

Lemma slice_from_zero l : slice_from 0 l = l.
Proof. unfold slice_from. simpl. by rewrite Z.min_l, drop_0 by lia. Qed.

Lemma slice_from_neg k l :
  (0 < k)%Z -> slice_from (- k) l = drop (length l - Z.to_nat k) l.
Proof.
  intros Hk. unfold slice_from.
  destruct (Z.ltb_spec (- k) 0) as [_|]; [|lia].
  f_equal. lia.
Qed.

Lemma slice_from_pos k l :
  (0 <= k)%Z -> slice_from k l = drop (Z.to_nat k) l.
Proof.
  intros Hk. unfold slice_from.
  destruct (Z.ltb_spec k 0) as [|_]; [lia|].
  destruct (Z.min_spec k (Z.of_nat (length l))) as [[_ ->]|[Hle ->]];
    [done|].
  rewrite Nat2Z.id. rewrite !drop_ge; [done|lia|lia].
Qed.

Lemma slice_from_length_neg k l :
  (0 < k)%Z ->
  length (slice_from (- k) l) = Nat.min (Z.to_nat k) (length l).
Proof. intros Hk. rewrite slice_from_neg, length_drop by done. lia. Qed.

Example slice_last_two : slice_from (-2) [1; 2; 3] = [2; 3].
Proof. reflexivity. Qed.

Example slice_longer_than_list : slice_from (-5) [1; 2; 3] = [1; 2; 3].
Proof. reflexivity. Qed.

Example slice_minus_zero : slice_from (- (1 - 1)) [1; 2; 3] = [1; 2; 3].
Proof. reflexivity. Qed.

Example slice_positive : slice_from 1 [1; 2; 3] = [2; 3].
Proof. reflexivity. Qed.

(** Every slice is a suffix, so it keeps no element twice and invents
    none. *)
Lemma slice_from_suffix k l : slice_from k l `suffix_of` l.
Proof. unfold slice_from. apply suffix_drop. Qed.
End Slice.

Lemma append_cons (a : ascii) (s1 s2 : string) :
  String a s1 +:+ s2 = String a (s1 +:+ s2).
Proof. reflexivity. Qed.

Lemma append_assoc (s1 s2 s3 : string) :
  (s1 +:+ s2) +:+ s3 = s1 +:+ (s2 +:+ s3).
Proof.
  induction s1 as [|a s1 IH]; [done|].
  by rewrite !append_cons, IH.
Qed.

Lemma append_nil_r (s : string) : s +:+ "" = s.
Proof. induction s as [|a s IH]; [done|]. by rewrite append_cons, IH. Qed.

(** On the ASCII names the case mappings are known. *)
Example upper_openai `{Str} : upper "openai" +:+ "_API_KEY" = "OPENAI_API_KEY".
Proof. by rewrite upper_ascii_text. Qed.

Example lower_mixed `{Str} : lower "DeepSeek" = "deepseek".
Proof. by rewrite lower_ascii_text. Qed.

Lemma bind_Ok {A B : Type} (a : A) (k : A -> result B) :
  bind (Ok a) k = k a.
Proof. reflexivity. Qed.

Lemma bind_Raise {A B : Type} (e : string) (k : A -> result B) :
  bind (Raise e) k = Raise e.
Proof. reflexivity. Qed.
End Py_facts.

(** ** The conversation history *)

Module conversation_facts.
Import Py Py_facts models conversation.

Section History.
Context {M : Type}.
Implicit Types (st : Conversation M) (r : string) (c : value).
Implicit Types (l : loc) (m : Message).

Lemma objects_add_message r c st :
  objects (add_message r c st) = objects st ++ [mkMessage r c].
Proof.
  unfold add_message. simpl.
  destruct (_ >? _)%Z; [|done]. by destruct (pinned _).
Qed.

Lemma max_history_add_message r c st :
  max_history (add_message r c st) = max_history st.
Proof.
  unfold add_message. simpl.
  destruct (_ >? _)%Z; [|done]. by destruct (pinned _).
Qed.

Lemma model_add_message r c st :
  model (add_message r c st) = model st.
Proof.
  unfold add_message. simpl.
  destruct (_ >? _)%Z; [|done]. by destruct (pinned _).
Qed.

(** [pinned] reads the head of the list and its object only. *)
Lemma pinned_Some st l0 :
  pinned st = Some l0 <->
  exists rest m0, messages st = l0 :: rest /\ objects st !! l0 = Some m0
                  /\ role m0 = "system".
Proof.
  unfold pinned. split.
  - destruct (messages st) as [|l rest]; [done|].
    destruct (objects st !! l) as [m|] eqn:Hm; [|done].
    destruct (decide _); [|done]. intros [= ->]. eauto.
  - intros (rest & m0 & -> & -> & Hr). by rewrite decide_True.
Qed.

Lemma pinned_appended r c st l0 rest m0 :
  messages st = l0 :: rest -> objects st !! l0 = Some m0 ->
  role m0 = "system" ->
  pinned {| model := model st; max_history := max_history st;
            messages := messages st ++ [length (objects st)];
            objects := objects st ++ [mkMessage r c] |} = Some l0.
Proof.
  intros Hms Hl0 Hr. apply pinned_Some. exists (rest ++ [length (objects st)]), m0.
  simpl. rewrite Hms. split; [done|]. split; [|done].
  by apply lookup_app_l_Some.
Qed.

(** One [add_message] keeps a pinned head where it is, and keeps its
    object. *)
Lemma add_message_keeps_head r c st l0 rest m0 :
  messages st = l0 :: rest -> objects st !! l0 = Some m0 ->
  role m0 = "system" ->
  exists rest', messages (add_message r c st) = l0 :: rest'
                /\ objects (add_message r c st) !! l0 = Some m0.
Proof.
  intros Hms Hl0 Hr.
  assert (objects (add_message r c st) !! l0 = Some m0) as Hobj.
  { rewrite objects_add_message. by apply lookup_app_l_Some. }
  unfold add_message in *. simpl in *.
  rewrite (pinned_appended r c st l0 rest m0) in * by done.
  destruct (_ >? _)%Z; simpl.
  - eauto.
  - rewrite Hms. simpl. eauto.
Qed.

Lemma add_messages_keeps_head calls st l0 rest m0 :
  messages st = l0 :: rest -> objects st !! l0 = Some m0 ->
  role m0 = "system" ->
  exists rest', messages (add_messages calls st) = l0 :: rest'
                /\ objects (add_messages calls st) !! l0 = Some m0.
Proof.
  revert st rest. induction calls as [|[r c] calls IH]; intros st rest Hms Hl0 Hr.
  - simpl. eauto.
  - simpl.
    destruct (add_message_keeps_head r c st l0 rest m0) as (rest1 & H1 & H2);
      [done..|].
    by apply (IH _ rest1).
Qed.

(** The length after one [add_message], branch by branch. *)
Lemma add_message_length r c st :
  let n := S (length (messages st)) in
  length (messages (add_message r c st)) =
    if (Z.of_nat n >? max_history st)%Z then
      match pinned {| model := model st; max_history := max_history st;
                      messages := messages st ++ [length (objects st)];
                      objects := objects st ++ [mkMessage r c] |} with
      | Some _ =>
          S (length (slice_from (- (max_history st - 1))
                       (messages st ++ [length (objects st)])))
      | None =>
          length (slice_from (- max_history st)
                    (messages st ++ [length (objects st)]))
      end
    else n.
Proof.
  intros n. unfold add_message. simpl.
  rewrite length_app. simpl. replace (length (messages st) + 1) with n by lia.
  destruct (_ >? _)%Z; [|simpl; rewrite length_app; simpl; lia].
  by destruct (pinned _).
Qed.

(** In a well-formed state the appended reference is new, so appending
    to a non-empty list does not change what is pinned. *)
Lemma pinned_appended_wf r c st :
  wf st -> messages st <> [] ->
  pinned {| model := model st; max_history := max_history st;
            messages := messages st ++ [length (objects st)];
            objects := objects st ++ [mkMessage r c] |} = pinned st.
Proof.
  intros Hwf Hne. unfold pinned. simpl.
  unfold wf in Hwf.
  destruct (messages st) as [|l1 rest1] eqn:Hst; [done|]. simpl.
  apply Forall_cons in Hwf as [Hl1 _].
  by rewrite lookup_app_l by done.
Qed.

(** The bound holds after [add_message] whenever the window has room for
    more than the pinned message, or nothing is pinned. *)
Lemma add_message_bounded r c st :
  wf st ->
  (2 <= max_history st)%Z
  \/ ((1 <= max_history st)%Z /\ pinned st = None) ->
  (Z.of_nat (length (messages (add_message r c st))) <= max_history st)%Z.
Proof.
  intros Hwf. rewrite add_message_length. cbv zeta.
  destruct (Z.gtb_spec (Z.of_nat (S (length (messages st)))) (max_history st))
    as [Hgt|Hle]; [|done].
  intros Hcase.
  destruct (pinned (mkConversation _ _ _ _)) as [l0|] eqn:Hp.
  - destruct Hcase as [Hmh|[Hmh Hnone]].
    + rewrite slice_from_length_neg by lia. lia.
    + exfalso. rewrite pinned_appended_wf in Hp; [congruence|done|].
      intros Hnil. rewrite Hnil in Hgt. simpl in Hgt. lia.
  - destruct Hcase as [Hmh|[Hmh _]];
      rewrite slice_from_length_neg by lia; lia.
Qed.

(** With [max_history = 1] and a pinned head, the slice [-(1-1):] is the
    whole list: the list grows by two at every call. *)
Lemma add_message_grows_at_one r c st l0 :
  max_history st = 1%Z -> pinned st = Some l0 ->
  messages (add_message r c st)
  = l0 :: messages st ++ [length (objects st)].
Proof.
  intros Hmh Hp. apply pinned_Some in Hp as (rest & m0 & Hms & Hl0 & Hr).
  unfold add_message. simpl.
  rewrite (pinned_appended r c st l0 rest m0) by done.
  rewrite Hmh, Hms. simpl.
  destruct (Z.gtb_spec (Z.of_nat (S (length (rest ++ [length (objects st)])))) 1)
    as [_|Hle]; [|rewrite length_app in Hle; simpl in Hle; lia].
  simpl. by rewrite slice_from_zero.
Qed.

(** *** Well-formedness and absence of aliasing are kept *)

Lemma wf_init (m : M) (mh : Z) : wf (init m mh).
Proof. constructor. Qed.

Lemma wf_add_message r c st : wf st -> wf (add_message r c st).
Proof.
  intros Hwf.
  assert (Forall (fun l => l < length (objects st ++ [mkMessage r c]))
            (messages st ++ [length (objects st)])) as Hwf1.
  { rewrite length_app. simpl. apply Forall_app. split.
    - eapply Forall_impl; [exact Hwf|]. simpl. lia.
    - repeat constructor. lia. }
  unfold wf. rewrite objects_add_message.
  unfold add_message. simpl.
  destruct (_ >? _)%Z; [|done].
  destruct (pinned _) as [l0|] eqn:Hp; simpl.
  - constructor.
    + apply pinned_Some in Hp as (rest & m0 & Hms & _). simpl in Hms.
      rewrite Hms in Hwf1. by apply Forall_cons in Hwf1 as [? _].
    + unfold slice_from. by apply Forall_drop.
  - unfold slice_from. by apply Forall_drop.
Qed.

Lemma wf_add_messages calls st : wf st -> wf (add_messages calls st).
Proof.
  revert st. induction calls as [|[r c] calls IH]; intros st Hwf; [done|].
  simpl. apply IH. by apply wf_add_message.
Qed.

Lemma wf_clear_history st : wf st -> wf (clear_history st).
Proof.
  intros Hwf. unfold clear_history.
  destruct (pinned st) as [l0|] eqn:Hp; [|constructor].
  apply pinned_Some in Hp as (rest & m0 & Hms & _).
  unfold wf in *. simpl. rewrite Hms in Hwf.
  apply Forall_cons in Hwf as [? _]. by repeat constructor.
Qed.

Lemma wf_set_system_message c st : wf st -> wf (set_system_message c st).
Proof.
  intros Hwf. unfold set_system_message, wf in *.
  destruct (pinned st) as [l0|]; simpl.
  - by rewrite length_alter.
  - rewrite length_app. simpl. constructor; [lia|].
    eapply Forall_impl; [exact Hwf|]. simpl. lia.
Qed.

(** No dict occurs twice in the list as long as the window has room for
    more than the pinned message. *)
Lemma NoDup_add_message r c st :
  wf st -> (2 <= max_history st)%Z -> NoDup (messages st) ->
  NoDup (messages (add_message r c st)).
Proof.
  intros Hwf Hmh Hnd.
  assert (NoDup (messages st ++ [length (objects st)])) as Hnd1.
  { apply NoDup_app. split; [done|]. split; [|apply NoDup_singleton].
    intros l Hl ->%list_elem_of_singleton.
    eapply Forall_forall in Hwf; [|exact Hl]. simpl in Hwf. lia. }
  unfold add_message. simpl.
  destruct (Z.gtb_spec (Z.of_nat (length (messages st ++ [length (objects st)])))
              (max_history st)) as [Hgt|Hle]; [|done].
  destruct (pinned _) as [l0|] eqn:Hp; simpl.
  - apply pinned_Some in Hp as (rest & m0 & Hms & _). simpl in Hms.
    rewrite Hms in *. rewrite slice_from_neg by lia.
    simpl in Hgt.
    replace (length (l0 :: rest) - Z.to_nat (max_history st - 1))
      with (S (length rest - Z.to_nat (max_history st - 1)))
      by (simpl; lia).
    simpl. apply NoDup_cons in Hnd1 as [Hnotin Hrest].
    apply NoDup_cons. split.
    + intros Hin. apply Hnotin.
      eapply elem_of_sublist; [exact Hin|apply sublist_drop].
    + eapply sublist_NoDup; [exact Hrest|apply sublist_drop].
  - eapply sublist_NoDup; [exact Hnd1|].
    unfold slice_from. apply sublist_drop.
Qed.
Lemma NoDup_clear_history st : NoDup (messages (clear_history st)).
Proof.
  unfold clear_history. destruct (pinned st); simpl;
    [apply NoDup_singleton|apply NoDup_nil_2].
Qed.

Lemma NoDup_set_system_message c st :
  wf st -> NoDup (messages st) -> NoDup (messages (set_system_message c st)).
Proof.
  intros Hwf Hnd. unfold set_system_message.
  destruct (pinned st); simpl; [done|].
  apply NoDup_cons. split; [|done].
  intros Hin. eapply Forall_forall in Hwf; [|exact Hin]. simpl in Hwf. lia.
Qed.

(** Every conversation the calls can build from a new one has its
    references in the store, and, when the window has room for more than the
    pinned message, holds no dict twice. *)
Lemma max_history_step st (k : call) : max_history (step st k) = max_history st.
Proof.
  destruct k as [r c|c|]; simpl.
  - apply max_history_add_message.
  - unfold set_system_message. by destruct (pinned st).
  - unfold clear_history. by destruct (pinned st).
Qed.

Lemma run_invariant (calls : list call) st :
  wf st -> wf (run calls st).
Proof.
  revert st. induction calls as [|k calls IH]; intros st Hwf; [done|].
  simpl. apply IH. destruct k as [r c|c|]; simpl.
  - by apply wf_add_message.
  - by apply wf_set_system_message.
  - by apply wf_clear_history.
Qed.

Lemma run_NoDup (calls : list call) st :
  wf st -> (2 <= max_history st)%Z -> NoDup (messages st) ->
  NoDup (messages (run calls st)).
Proof.
  revert st. induction calls as [|k calls IH]; intros st Hwf Hmh Hnd; [done|].
  simpl. apply IH.
  - apply (run_invariant [k]); done.
  - by rewrite max_history_step.
  - destruct k as [r c|c|]; simpl.
    + by apply NoDup_add_message.
    + by apply NoDup_set_system_message.
    + apply NoDup_clear_history.
Qed.

Lemma run_from_init (calls : list call) (m : M) (mh : Z) :
  wf (run calls (init m mh))
  /\ ((2 <= mh)%Z -> NoDup (messages (run calls (init m mh)))).
Proof.
  split.
  - apply run_invariant, wf_init.
  - intros Hmh. apply run_NoDup; [apply wf_init|done|apply NoDup_nil_2].
Qed.

(** *** What one [add_message] leaves at the end of the list *)

Lemma add_message_last r c st :
  (1 <= max_history st)%Z ->
  exists pre, messages (add_message r c st) = pre ++ [length (objects st)].
Proof.
  intros Hmh. unfold add_message. simpl.
  destruct (Z.gtb_spec (Z.of_nat (length (messages st ++ [length (objects st)])))
              (max_history st)) as [Hgt|Hle]; [|by eexists].
  rewrite length_app in Hgt. simpl in Hgt.
  destruct (pinned (mkConversation _ _ _ _)) as [l0|]; simpl.
  - destruct (decide (max_history st = 1%Z)) as [->|Hne].
    + simpl. rewrite slice_from_zero. by exists (l0 :: messages st).
    + rewrite slice_from_neg by lia. rewrite length_app. simpl.
      rewrite drop_app_le by lia. by eexists (l0 :: _).
  - rewrite slice_from_neg by lia. rewrite length_app. simpl.
    rewrite drop_app_le by lia. by eexists.
Qed.

Lemma history_add_message_last r c st :
  (1 <= max_history st)%Z ->
  exists pre, history (add_message r c st) = pre ++ [mkMessage r c].
Proof.
  intros Hmh. destruct (add_message_last r c st Hmh) as [pre Hpre].
  unfold history. rewrite Hpre, objects_add_message, omap_app. simpl.
  rewrite list_lookup_middle by done. by eexists.
Qed.

(** *** Reading the history through the store *)

Lemma history_cons st l0 rest m0 :
  messages st = l0 :: rest -> objects st !! l0 = Some m0 ->
  history st = m0 :: omap (fun l => objects st !! l) rest.
Proof. intros Hms Hl0. unfold history. rewrite Hms. simpl. by rewrite Hl0. Qed.

Lemma omap_lookup_length (objs : list Message) (ls : list loc) :
  Forall (fun l => l < length objs) ls ->
  length (omap (fun l => objs !! l) ls) = length ls.
Proof.
  induction 1 as [|l ls Hl _ IH]; [done|].
  destruct (lookup_lt_is_Some_2 _ _ Hl) as [m Hm].
  simpl. rewrite Hm. simpl. f_equal. exact IH.
Qed.

Lemma omap_lookup_app_l (objs extra : list Message) (ls : list loc) :
  Forall (fun l => l < length objs) ls ->
  omap (fun l => (objs ++ extra) !! l) ls = omap (fun l => objs !! l) ls.
Proof.
  induction 1 as [|l ls Hl _ IH]; [done|].
  simpl. rewrite lookup_app_l by done.
  destruct (objs !! l); [f_equal|]; exact IH.
Qed.

Lemma omap_lookup_alter_ne (f : Message -> Message) (objs : list Message)
    (l0 : loc) (ls : list loc) :
  l0 ∉ ls ->
  omap (fun l => alter f l0 objs !! l) ls = omap (fun l => objs !! l) ls.
Proof.
  induction ls as [|l ls IH]; [done|].
  intros [Hne Hnotin]%not_elem_of_cons.
  simpl. rewrite list_lookup_alter_ne by done.
  destruct (objs !! l); [f_equal|]; by apply IH.
Qed.

Lemma history_length st : wf st -> length (history st) = length (messages st).
Proof. apply omap_lookup_length. Qed.

End History.

(** *** The claims about the history *)

Section Claims.
Context {M : Type}.
Implicit Types (st : Conversation M) (r : string) (c : value).

(** C4 (system pinning). For every [max_history >= 1]: when [messages[0]]
    is a system message, then after any number of further [add_message]
    calls [messages[0]] is still that same dict, with the content it had; the
    window never evicts it. *)
Theorem system_message_stays_pinned
    (calls : list (string * value)) st (l0 : loc) (rest : list loc)
    (m0 : Message) :
  (1 <= max_history st)%Z ->
  messages st = l0 :: rest -> objects st !! l0 = Some m0 ->
  role m0 = "system" ->
  exists rest',
    messages (add_messages calls st) = l0 :: rest'
    /\ objects (add_messages calls st) !! l0 = Some m0
    /\ head (history (add_messages calls st)) = Some m0.
Proof.
  intros _ Hms Hl0 Hr.
  destruct (add_messages_keeps_head calls st l0 rest m0) as (rest' & H1 & H2);
    [done..|].
  exists rest'. split; [done|]. split; [done|].
  by rewrite (history_cons _ l0 rest' m0).
Qed.

(** C10 (clear preserves system). After [clear_history()] the history is
    empty when no system message was at index 0, and is exactly the
    one-element list of that system message otherwise; no dict is changed. *)
Theorem clear_history_keeps_only_system st :
  wf st ->
  history (clear_history st) =
    match history st with
    | m :: _ => if decide (role m = "system") then [m] else []
    | [] => []
    end
  /\ objects (clear_history st) = objects st.
Proof.
  intros Hwf. split; [|unfold clear_history; by destruct (pinned st)].
  unfold clear_history, history, pinned, wf in *.
  destruct (messages st) as [|l0 rest]; [done|].
  apply Forall_cons in Hwf as [Hl0 _].
  destruct (lookup_lt_is_Some_2 _ _ Hl0) as [m0 Hm0].
  simpl. rewrite Hm0. simpl.
  destruct (decide (role m0 = "system")); simpl; [by rewrite Hm0|done].
Qed.

(** C2, amended. [set_system_message(content)]: when [messages[0]] is a
    system message its dict gets the new content, the list and every other
    dict are unchanged, so the history changes at index 0 only unless the
    same dict occurs again further on; otherwise a new system message is
    put at index 0 and every message moves one place right. The call never
    trims: the list is one longer after an insertion, so the bound holds
    afterwards when there was room for one more. *)
Theorem set_system_message_effect c st :
  wf st ->
  (forall l0 rest m0,
      messages st = l0 :: rest -> objects st !! l0 = Some m0 ->
      role m0 = "system" ->
      messages (set_system_message c st) = l0 :: rest
      /\ objects (set_system_message c st) !! l0 = Some (mkMessage "system" c)
      /\ (forall l, l <> l0 ->
            objects (set_system_message c st) !! l = objects st !! l)
      /\ (l0 ∉ rest ->
            history (set_system_message c st)
            = mkMessage "system" c :: tail (history st)))
  /\ (pinned st = None ->
      history (set_system_message c st) = mkMessage "system" c :: history st
      /\ length (messages (set_system_message c st)) = S (length (messages st))
      /\ ((Z.of_nat (length (messages st)) < max_history st)%Z ->
          (Z.of_nat (length (messages (set_system_message c st)))
           <= max_history st)%Z)).
Proof.
  intros Hwf. split.
  - intros l0 rest m0 Hms Hl0 Hr.
    assert (pinned st = Some l0) as Hp by (apply pinned_Some; eauto).
    unfold set_system_message. rewrite Hp. simpl.
    split; [done|]. split; [|split].
    + rewrite list_lookup_alter_eq, Hl0. simpl. by rewrite Hr.
    + intros l Hne. by rewrite list_lookup_alter_ne.
    + intros Hnotin. unfold history. simpl. rewrite Hms. simpl.
      rewrite list_lookup_alter_eq, Hl0. simpl. rewrite Hr. f_equal.
      by apply omap_lookup_alter_ne.
  - intros Hp. unfold set_system_message. rewrite Hp. simpl.
    split; [|split; [done|lia]].
    unfold history. simpl. rewrite list_lookup_middle by done. simpl.
    f_equal. by apply omap_lookup_app_l.
Qed.

End Claims.

(** *** One exchange *)

Section Exchange.
Context {M : Type} `{BaseModel M}.
Implicit Types (st : Conversation M).

(** The streaming loop over str fragments writes each of them, in order,
    and accumulates their concatenation. *)
Lemma drain_strs (fs : list string) (written : list string) (acc : string) :
  drain (VStr <$> fs) None written acc = (written ++ fs, Ok (acc +:+ join fs)).
Proof.
  revert written acc. induction fs as [|f fs IH]; intros written acc.
  - simpl. by rewrite app_nil_r, append_nil_r.
  - simpl. rewrite IH. by rewrite <- app_assoc, append_assoc.
Qed.

(** A generator that raises leaves the user message in the history and no
    assistant message. *)
Lemma send_message_stream_raises (text : string) st (fs : list string)
    (e : string) :
  let st1 := add_message "user" (VStr text) st in
  generate (model st1) (history st1) true
  = Ok (mkGenerator (VStr <$> fs) (Some e)) ->
  send_message text true st = (Raise e, fs, st1).
Proof.
  cbv zeta. intros Hgen. unfold send_message. rewrite Hgen. simpl.
  assert (forall w acc, drain (VStr <$> fs) (Some e) w acc = (w ++ fs, Raise e))
    as Hdrain.
  { clear Hgen. induction fs as [|f fs IH]; intros w acc; simpl.
    - by rewrite app_nil_r.
    - rewrite IH. by rewrite <- app_assoc. }
  by rewrite Hdrain.
Qed.

(** C9 (streaming/non-streaming equivalence). For an adapter whose
    streaming [generate] yields the fragments [fs] and then ends, and whose
    non-streaming [generate] returns their concatenation, [send_message]
    leaves the same conversation in both modes: the one where the single
    assistant message holding the concatenation was added after the user
    message. The fragments went to the sink in order, and the assistant
    message is the last of the history. *)
Theorem streaming_matches_non_streaming (text : string) (fs : list string) st :
  let st1 := add_message "user" (VStr text) st in
  generate (model st1) (history st1) true = Ok (mkGenerator (VStr <$> fs) None) ->
  generate (model st1) (history st1) false = Ok (VStr (join fs)) ->
  (send_message text true st).2 = (send_message text false st).2
  /\ (send_message text true st).2
     = add_message "assistant" (VStr (join fs)) st1
  /\ (send_message text true st).1.2 = fs
  /\ (send_message text false st).1.1 = Ok (Some (VStr (join fs)))
  /\ ((1 <= max_history st)%Z ->
      exists pre,
        history (send_message text true st).2
        = pre ++ [mkMessage "assistant" (VStr (join fs))]).
Proof.
  cbv zeta. intros Hs Hn. unfold send_message.
  rewrite Hs, Hn. simpl. rewrite drain_strs. simpl.
  repeat split.
  intros Hmh. apply history_add_message_last.
  by rewrite max_history_add_message.
Qed.

End Exchange.

Lemma streaming_matches_non_streaming_witness :
  let st := mkConversation fixtures.hello 10 [] [] in
  (send_message "hi" true st).2 = (send_message "hi" false st).2
  /\ history (send_message "hi" true st).2
     = [mkMessage "user" (VStr "hi"); mkMessage "assistant" (VStr "Hello")].
Proof.
  cbv zeta.
  pose proof (streaming_matches_non_streaming "hi" ["Hel"; "lo"]
                (mkConversation fixtures.hello 10 [] [])
                eq_refl eq_refl) as (Heq & Hst & _).
  split; [exact Heq|]. rewrite Hst. reflexivity.
Defined.

(** C1 at [max_history = 1] with a pinned system message: the bound holds
    before the call, and the call leaves three entries, the system message
    twice. *)
Theorem add_message_exceeds_bound_at_one :
  let sys := mkMessage "system" (VStr "be brief") in
  let st := mkConversation fixtures.hello 1 [0] [sys] in
  wf st
  /\ (Z.of_nat (length (messages st)) <= max_history st)%Z
  /\ history (add_message "user" (VStr "hi") st)
     = [sys; sys; mkMessage "user" (VStr "hi")]
  /\ ~ (Z.of_nat (length (messages (add_message "user" (VStr "hi") st)))
        <= max_history (add_message "user" (VStr "hi") st))%Z.
Proof.
  cbv zeta. split; [repeat constructor|]. split; [done|]. split; [done|].
  vm_compute. by intros H.
Qed.

Lemma system_message_stays_pinned_witness :
  let sys := mkMessage "system" (VStr "be brief") in
  let st := mkConversation fixtures.hello 2 [0; 1]
              [sys; mkMessage "user" (VStr "hi")] in
  let calls := [("assistant", VStr "hello"); ("user", VStr "and then?")] in
  exists rest',
    messages (add_messages calls st) = 0 :: rest'
    /\ objects (add_messages calls st) !! 0 = Some sys
    /\ head (history (add_messages calls st)) = Some sys.
Proof.
  cbv zeta.
  apply (system_message_stays_pinned _ _ 0 [1]
           (mkMessage "system" (VStr "be brief")));
    [simpl; lia | reflexivity | reflexivity | reflexivity].
Defined.

Lemma clear_history_keeps_only_system_witness :
  let sys := mkMessage "system" (VStr "be brief") in
  let st := mkConversation fixtures.hello 10 [0; 1]
              [sys; mkMessage "user" (VStr "hi")] in
  history (clear_history st) = [sys].
Proof.
  cbv zeta.
  refine (proj1 (clear_history_keeps_only_system _ _)).
  repeat constructor.
Defined.

(** C2 as stated fails: a full history without a system message is one over
    the bound after [set_system_message]. *)
Lemma set_system_message_exceeds_bound :
  let st := mkConversation fixtures.hello 2 [0; 1]
              [mkMessage "user" (VStr "hi");
               mkMessage "assistant" (VStr "Hello")] in
  wf st
  /\ (Z.of_nat (length (messages st)) <= max_history st)%Z
  /\ history (set_system_message (VStr "be brief") st)
     = [mkMessage "system" (VStr "be brief"); mkMessage "user" (VStr "hi");
        mkMessage "assistant" (VStr "Hello")]
  /\ ~ (Z.of_nat (length (messages (set_system_message (VStr "be brief") st)))
        <= max_history (set_system_message (VStr "be brief") st))%Z.
Proof.
  cbv zeta. split; [repeat constructor|]. split; [done|]. split; [done|].
  vm_compute. by intros H.
Qed.

Lemma set_system_message_effect_witness :
  let st := mkConversation fixtures.hello 3 [0] [mkMessage "user" (VStr "hi")] in
  history (set_system_message (VStr "be brief") st)
  = [mkMessage "system" (VStr "be brief"); mkMessage "user" (VStr "hi")].
Proof.
  cbv zeta.
  refine (proj1 (proj2 (set_system_message_effect _ _ _) _));
    [repeat constructor | reflexivity].
Defined.

End conversation_facts.

(** ** The adapters *)

Module models_facts.
Import Py Py_facts config models.

(** *** Decoding one streamed object *)

Ltac crush_value :=
  repeat (simpl in *; simplify_eq;
          match goal with
          | |- context [match ?x with _ => _ end] => destruct x eqn:?
          | H : context [match ?x with _ => _ end] |- _ => destruct x eqn:?
          end);
  simpl in *; simplify_eq; try done; try congruence.

(** The streaming loop yields for an object exactly when the path
    [choices[0].delta.content] leads to a value that is true. *)
Lemma delta_content_Some (data c : value) :
  OpenAIModel.delta_content data = Ok (Some c)
  <-> choices0_delta_content data = Some c /\ truthy c = true.
Proof.
  unfold OpenAIModel.delta_content, choices0_delta_content.
  unfold contains, getitem, len, getitem0, get, bind, default.
  split.
  - intros Hd. crush_value.
  - intros [Hp Ht]. crush_value.
Qed.

Example strip_data_sentinel : OpenAIModel.strip_data "data: [DONE]" = "[DONE]".
Proof. reflexivity. Qed.

Example strip_data_once :
  OpenAIModel.strip_data "data: data: [DONE]" = "data: [DONE]".
Proof. reflexivity. Qed.

Example delta_content_fragment :
  OpenAIModel.delta_content (fixtures.delta_value "Hel") = Ok (Some (VStr "Hel")).
Proof. reflexivity. Qed.

Example delta_content_empty :
  OpenAIModel.delta_content (fixtures.delta_value "") = Ok None.
Proof. reflexivity. Qed.

Example delta_content_of_a_number :
  OpenAIModel.delta_content (VInt 5)
  = Raise "argument of type 'int' is not iterable".
Proof. reflexivity. Qed.

(** *** The OpenAI-compatible streaming loop *)

Section OpenAI.
Context `{World}.
Implicit Types (self : Attrs) (headers : list (string * string)).
Implicit Types (data : gmap string value) (response : Response).
Implicit Types (pre rest : list string) (line s e : string).
Implicit Types (stop : option string).

(** What the loop does after a line does not depend on the lines before. *)
Lemma stream_lines_app pre (s1 s2 : list string) (stop1 stop2 : option string) :
  OpenAIModel.stream_lines s1 stop1 = OpenAIModel.stream_lines s2 stop2 ->
  OpenAIModel.stream_lines (pre ++ s1) stop1
  = OpenAIModel.stream_lines (pre ++ s2) stop2.
Proof.
  intros Heq. induction pre as [|p pre IH]; [done|].
  simpl. by rewrite IH.
Qed.

Lemma stream_lines_sentinel line s rest stop :
  line <> "" -> decode_utf8 line = Ok s ->
  OpenAIModel.strip_data s = "[DONE]" ->
  OpenAIModel.stream_lines (line :: rest) stop = gen_return.
Proof.
  intros Hne Hdec Hs. simpl.
  destruct (String.eqb_spec line ""); [done|].
  by rewrite Hdec, Hs.
Qed.

Lemma stream_lines_silent line s rest stop :
  line <> "" -> decode_utf8 line = Ok s ->
  OpenAIModel.strip_data s <> "[DONE]" ->
  (forall (d c : value), json_loads (OpenAIModel.strip_data s) = Ok d ->
     choices0_delta_content d = Some c -> truthy c = false) ->
  OpenAIModel.stream_lines (line :: rest) stop
  = OpenAIModel.stream_lines rest stop.
Proof.
  intros Hne Hdec Hs Hnone. simpl.
  destruct (String.eqb_spec line ""); [done|]. rewrite Hdec.
  destruct (String.eqb_spec (OpenAIModel.strip_data s) "[DONE]"); [done|].
  destruct (json_loads (OpenAIModel.strip_data s)) as [d|e] eqn:Hj; [|done].
  simpl. destruct (OpenAIModel.delta_content d) as [[c|]|e] eqn:Hd; [|done..].
  apply delta_content_Some in Hd as [Hp Ht].
  rewrite (Hnone d c) in Ht; done.
Qed.

Lemma stream_lines_yield line s rest stop (d c : value) :
  line <> "" -> decode_utf8 line = Ok s ->
  OpenAIModel.strip_data s <> "[DONE]" ->
  json_loads (OpenAIModel.strip_data s) = Ok d ->
  choices0_delta_content d = Some c -> truthy c = true ->
  OpenAIModel.stream_lines (line :: rest) stop
  = gen_yield c (OpenAIModel.stream_lines rest stop).
Proof.
  intros Hne Hdec Hs Hj Hp Ht. simpl.
  destruct (String.eqb_spec line ""); [done|]. rewrite Hdec.
  destruct (String.eqb_spec (OpenAIModel.strip_data s) "[DONE]"); [done|].
  rewrite Hj. simpl.
  by rewrite (proj2 (delta_content_Some d c) (conj Hp Ht)).
Qed.

(** A line that is not UTF-8 ends the OpenAI-compatible stream with the
    decoding error: the decoding is outside the loop's [try]. *)
Lemma stream_lines_undecodable line e rest stop :
  line <> "" -> decode_utf8 line = Raise e ->
  OpenAIModel.stream_lines (line :: rest) stop = gen_raise e.
Proof.
  intros Hne Hdec. simpl.
  destruct (String.eqb_spec line ""); [done|]. by rewrite Hdec.
Qed.

(** The other family decodes inside the [try], and goes on. *)
Lemma qwen_stream_lines_undecodable line e rest stop :
  decode_utf8 line = Raise e ->
  QwenModel.stream_lines (line :: rest) stop
  = QwenModel.stream_lines rest stop.
Proof.
  intros Hdec. simpl. rewrite Hdec. simpl. by destruct (String.eqb line "").
Qed.

(** C7 (sentinel termination). In an OpenAI-compatible streamed response,
    a line whose payload, after the ['data: '] prefix is removed, is
    [[DONE]] yields no fragment and ends the sequence there: the generator
    is the one of the lines before it, ending normally, whatever lines
    follow and however the body ends after them. *)
Theorem sentinel_ends_stream self headers data response pre line s rest :
  post {| url := api_base self +:+ "/chat/completions"; headers := headers;
          json := data; stream := true; proxies := get_proxies self |}
  = Ok response ->
  status_code response = 200%Z ->
  yielded (iter_lines response) = pre ++ line :: rest ->
  line <> "" -> decode_utf8 line = Ok s ->
  OpenAIModel.strip_data s = "[DONE]" ->
  OpenAIModel._stream_generate self headers data
  = OpenAIModel.stream_lines pre None.
Proof.
  intros Hpost Hst Hlines Hne Hdec Hs.
  unfold OpenAIModel._stream_generate. rewrite Hpost, Hst, Hlines. simpl.
  rewrite <- (app_nil_r pre) at 2.
  apply stream_lines_app. by eapply stream_lines_sentinel.
Qed.

(** C8, amended. Streaming: a line that decodes as UTF-8 and is not the
    sentinel, and that is not valid JSON, or whose JSON has no
    [choices[0].delta.content] or has it empty (or false in another way),
    yields no fragment and does not end the sequence: the generator is the
    one of the other lines, in their order (and with the end the body
    has). Non-streaming, status 200: a
    body that is not valid JSON gives the parse-error string as the reply;
    a JSON object without [choices], or with an empty [choices] list, gives
    the empty string. *)
Theorem decode_errors_are_tolerated self headers data response :
  (forall pre line s rest stop,
     line <> "" -> decode_utf8 line = Ok s ->
     OpenAIModel.strip_data s <> "[DONE]" ->
     (exists e, json_loads (OpenAIModel.strip_data s) = Raise e)
     \/ (exists d, json_loads (OpenAIModel.strip_data s) = Ok d
                   /\ (choices0_delta_content d = None
                       \/ exists c, choices0_delta_content d = Some c
                                    /\ truthy c = false)) ->
     OpenAIModel.stream_lines (pre ++ line :: rest) stop
     = OpenAIModel.stream_lines (pre ++ rest) stop)
  /\ (post {| url := api_base self +:+ "/chat/completions"; headers := headers;
              json := <["stream" := VBool false]> data; stream := false;
              proxies := get_proxies self |} = Ok response ->
      status_code response = 200%Z ->
      (forall e, json_loads (text response) = Raise e ->
         OpenAIModel._non_stream_generate self headers data
         = Ok (VStr (parse_error e)))
      /\ (forall kv, json_loads (text response) = Ok (VDict kv) ->
            kv !! "choices" = None \/ kv !! "choices" = Some (VList []) ->
            OpenAIModel._non_stream_generate self headers data
            = Ok (VStr ""))).
Proof.
  split.
  - intros pre line s rest stop Hne Hdec Hs Hbad.
    apply stream_lines_app. eapply stream_lines_silent; [done..|].
    intros d c Hj Hp.
    destruct Hbad as [[e He]|(d' & Hd' & [Hnone|(c' & Hc' & Hf)])];
      congruence.
  - intros Hpost Hst. unfold OpenAIModel._non_stream_generate.
    rewrite Hpost. simpl. rewrite Hst. simpl.
    unfold OpenAIModel.message_content, response_json. split.
    + intros e He. by rewrite He.
    + intros kv Hkv Hch. rewrite Hkv. simpl.
      by destruct Hch as [->| ->].
Qed.

(** *** Failures *)

(** A status other than 200 makes the stream one fragment long. *)
Lemma stream_status_error self headers data response :
  post {| url := api_base self +:+ "/chat/completions"; headers := headers;
          json := data; stream := true; proxies := get_proxies self |}
  = Ok response ->
  status_code response <> 200%Z ->
  OpenAIModel._stream_generate self headers data
  = mkGenerator [VStr (status_error response)] None.
Proof.
  intros Hpost Hst. unfold OpenAIModel._stream_generate. rewrite Hpost.
  by destruct (Z.eqb_spec (status_code response) 200).
Qed.

(** Not streaming, [generate] returns: every exception below it is caught
    and becomes the reply. *)
Lemma non_stream_returns (m : Model) (messages : list Message) :
  exists v, Model_generate m messages false = Ok v.
Proof.
  destruct m as [self|self|self]; simpl;
    unfold OpenAIModel.generate, QwenModel.generate;
    match goal with |- context [match ?x with _ => _ end] => destruct x end;
    eauto.
Qed.

Lemma non_stream_transport_error self (messages : list Message) e :
  (forall req, post req = Raise e) ->
  OpenAIModel.generate self messages false
  = Ok (VStr ("OpenAI API请求失败：" +:+ e)).
Proof.
  intros Hpost. unfold OpenAIModel.generate, OpenAIModel._non_stream_generate.
  by rewrite Hpost.
Qed.

(** Streaming, [generate] returns the generator without running it: when
    the request raises, the exception is the generator's, and it is its
    consumer that gets it. *)
Lemma stream_transport_error (m : Model) (messages : list Message) e :
  (forall req, post req = Raise e) ->
  Model_generate m messages true = Ok (gen_raise e).
Proof.
  intros Hpost. destruct m as [self|self|self]; simpl;
    unfold OpenAIModel.generate, OpenAIModel._stream_generate,
      QwenModel.generate, QwenModel._stream_generate;
    by rewrite Hpost.
Qed.

End OpenAI.

(** *** The streams and replies of the fake server *)

Lemma sentinel_ends_stream_witness :
  @OpenAIModel._stream_generate (fixtures.fake_world (Ok fixtures.sse_response))
    fixtures.openai_attrs (bearer_headers fixtures.openai_attrs) ∅
  = mkGenerator [VStr "Hel"; VStr "lo"] None.
Proof.
  rewrite (@sentinel_ends_stream
             (fixtures.fake_world (Ok fixtures.sse_response))
             fixtures.openai_attrs (bearer_headers fixtures.openai_attrs) ∅
             fixtures.sse_response
             [fixtures.delta_line "Hel"; fixtures.delta_line "lo"]
             "data: [DONE]" "data: [DONE]" [fixtures.delta_line "late"]);
    [vm_compute; reflexivity | reflexivity | reflexivity | reflexivity
    | discriminate | reflexivity | vm_compute; reflexivity].
Defined.

(** C8 as stated fails: with status 200 and a body that is not JSON, the
    non-streaming reply is the parse-error text, not the empty string. *)
Lemma invalid_json_body_is_not_an_empty_reply :
  let W := fixtures.fake_world (Ok fixtures.html_response) in
  status_code fixtures.html_response = 200%Z
  /\ @response_json W fixtures.html_response = Raise fixtures.no_json
  /\ @OpenAIModel.generate W fixtures.openai_attrs
       [mkMessage "user" (VStr "hi")] false
     = Ok (VStr (parse_error fixtures.no_json))
  /\ @OpenAIModel.generate W fixtures.openai_attrs
       [mkMessage "user" (VStr "hi")] false
     <> Ok (VStr "").
Proof. cbv zeta. split; [done|]. split; [done|]. split; [done|]. discriminate. Qed.

Lemma decode_errors_are_tolerated_witness :
  let W := fixtures.fake_world (Ok fixtures.html_response) in
  @OpenAIModel.stream_lines W
    [fixtures.delta_line "Hel"; "data: {oops"; fixtures.delta_line "lo"] None
  = @OpenAIModel.stream_lines W
      [fixtures.delta_line "Hel"; fixtures.delta_line "lo"] None
  /\ @OpenAIModel._non_stream_generate W fixtures.openai_attrs
       (bearer_headers fixtures.openai_attrs) ∅
     = Ok (VStr (parse_error fixtures.no_json)).
Proof.
  cbv zeta.
  destruct (@decode_errors_are_tolerated
              (fixtures.fake_world (Ok fixtures.html_response))
              fixtures.openai_attrs (bearer_headers fixtures.openai_attrs) ∅
              fixtures.html_response)
    as [Hstream Hreply].
  split.
  - apply (Hstream [fixtures.delta_line "Hel"] "data: {oops" "data: {oops"
             [fixtures.delta_line "lo"] None);
      [discriminate | reflexivity | discriminate |].
    left. exists fixtures.no_json. reflexivity.
  - apply (proj1 (Hreply eq_refl eq_refl)). reflexivity.
Defined.

(** C3 at a failing request, streaming: [generate] returns a generator
    that yields nothing and raises the transport error; [send_message],
    its consumer, raises it, with the user message in the history and no
    assistant message. The same request not streaming returns the error
    as the reply. *)
Theorem stream_transport_error_is_raised :
  let W := fixtures.fake_world (Raise "Connection refused") in
  let m := OpenAI fixtures.openai_attrs in
  let st := conversation.mkConversation m 10 [] [] in
  @Model_generate W m [mkMessage "user" (VStr "hi")] true
  = Ok (mkGenerator [] (Some "Connection refused"))
  /\ @Model_generate W (Qwen fixtures.openai_attrs)
       [mkMessage "user" (VStr "hi")] true
     = Ok (mkGenerator [] (Some "Connection refused"))
  /\ @conversation.send_message Model (@Model_BaseModel W) "hi" true st
     = (Raise "Connection refused", [],
        conversation.add_message "user" (VStr "hi") st)
  /\ @Model_generate W m [mkMessage "user" (VStr "hi")] false
     = Ok (VStr "OpenAI API请求失败：Connection refused").
Proof. cbv zeta. do 3 (split; [reflexivity|]). reflexivity. Qed.

(** *** The factory *)

Section Factory.
Context `{Str}.
Implicit Types (environ entry : gmap string string) (name key : string).
Implicit Types (cfg : Config).

Lemma falsy_stored_key entry :
  falsy (entry !! "api_key") = bool_decide (stored_key entry = None).
Proof.
  unfold falsy, stored_key. destruct (entry !! "api_key") as [k|]; [|done].
  by destruct (String.eqb k "").
Qed.

Lemma stored_key_lookup entry key :
  stored_key entry = Some key -> entry !! "api_key" = Some key.
Proof.
  unfold stored_key. destruct (entry !! "api_key") as [k|]; [|done].
  destruct (String.eqb k ""); [done|]. by intros [= ->].
Qed.

Lemma falsy_environ_key environ name :
  falsy (environ !! (upper name +:+ "_API_KEY"))
  = bool_decide (environ_key environ name = None).
Proof.
  unfold falsy, environ_key.
  destruct (environ !! _) as [k|]; [|done]. by destruct (String.eqb k "").
Qed.

Lemma environ_key_lookup environ name key :
  environ_key environ name = Some key ->
  environ !! (upper name +:+ "_API_KEY") = Some key.
Proof.
  unfold environ_key. destruct (environ !! _) as [k|]; [|done].
  destruct (String.eqb k ""); [done|]. by intros [= ->].
Qed.

Lemma get_model_config_Some name cfg entry :
  models cfg !! name = Some entry -> get_model_config name cfg = entry.
Proof. unfold get_model_config. by intros ->. Qed.

Lemma get_model_config_None name cfg :
  models cfg !! name = None -> get_model_config name cfg = ∅.
Proof. unfold get_model_config. by intros ->. Qed.

(** C5, amended. [get_model_instance] leaves the configuration object as
    it was, except when the environment fallback is used (the entry is not
    empty, its key is empty or missing, and the environment variable holds
    a non-empty value): then the value is written into the entry's
    [api_key], and nothing else changes. *)
Theorem get_model_instance_config_frame environ name cfg :
  let cfg' := (get_model_instance environ name cfg).2 in
  match models cfg !! name with
  | None => cfg' = cfg
  | Some entry =>
      match stored_key entry, environ_key environ name with
      | None, Some key =>
          if decide (entry = ∅) then cfg' = cfg
          else
            models cfg' = <[name := <["api_key" := key]> entry]> (models cfg)
            /\ default_model cfg' = default_model cfg
            /\ proxy cfg' = proxy cfg
            /\ max_history cfg' = max_history cfg
            /\ stream_output cfg' = stream_output cfg
      | _, _ => cfg' = cfg
      end
  end.
Proof.
  cbv zeta. unfold get_model_instance.
  destruct (models cfg !! name) as [entry|] eqn:Hentry.
  - rewrite (get_model_config_Some name cfg entry Hentry).
    rewrite falsy_stored_key, falsy_environ_key.
    destruct (stored_key entry) as [k|] eqn:Hk.
    + rewrite (bool_decide_false (Some k = None)) by done. simpl.
      case_bool_decide; [done|].
      repeat (case_match; simplify_eq/=; try done).
    + rewrite (bool_decide_true (None = None)) by done.
      destruct (environ_key environ name) as [key|] eqn:Hkey.
      * rewrite (bool_decide_false (Some key = None)) by done.
        rewrite (environ_key_lookup _ _ _ Hkey). simpl.
        destruct (decide (entry = ∅)) as [->|Hne].
        -- by rewrite bool_decide_true.
        -- rewrite (bool_decide_false (entry = ∅)) by done.
           assert (models (store_api_key name key cfg)
                   = <[name := <["api_key" := key]> entry]> (models cfg)) as Hm.
           { unfold store_api_key. simpl.
             by rewrite (get_model_config_Some name cfg entry Hentry). }
           repeat (case_match; simplify_eq/=; try done).
      * rewrite (bool_decide_true (None = None)) by done. simpl.
        by case_bool_decide.
  - rewrite (get_model_config_None name cfg Hentry).
    by rewrite bool_decide_true.
Qed.

(** C6, amended. [get_model_instance] returns an adapter exactly when the
    named entry exists and is not an empty dict, a non-empty key is
    available (the stored one, else the one of the environment variable
    [NAME_API_KEY]), and the name is the one of a known family up to case;
    the adapter is of that family and holds that key. In every other case
    it returns nothing. *)
Theorem get_model_instance_resolves environ name cfg :
  let r := (get_model_instance environ name cfg).1 in
  (is_Some r <->
   exists entry key,
     models cfg !! name = Some entry /\ entry <> ∅
     /\ available_key environ name entry = Some key
     /\ lower name ∈ ["openai"; "deepseek"; "qwen"])
  /\ (forall m entry,
        r = Some m -> models cfg !! name = Some entry ->
        family_name m = lower name
        /\ Some (api_key (attrs_of m)) = available_key environ name entry
        /\ model_name (attrs_of m) = default "" (entry !! "model")
        /\ api_base (attrs_of m) = default "" (entry !! "api_base")).
Proof.
  cbv zeta. unfold get_model_instance.
  destruct (models cfg !! name) as [entry|] eqn:Hentry.
  2:{ rewrite (get_model_config_None name cfg Hentry).
      rewrite bool_decide_true by done. simpl. split.
      - split; [by intros [? ?]|]. by intros (? & ? & ? & _).
      - done. }
  rewrite (get_model_config_Some name cfg entry Hentry).
  destruct (decide (entry = ∅)) as [->|Hne].
  { rewrite bool_decide_true by done. simpl. split.
    - split; [by intros [? ?]|]. intros (? & ? & ? & ? & _). congruence.
    - done. }
  rewrite (bool_decide_false (entry = ∅)) by done.
  rewrite falsy_stored_key, falsy_environ_key. unfold available_key.
  assert (forall (mc : gmap string string) (c : Config) key,
            mc !! "api_key" = Some key ->
            mc !! "model" = entry !! "model" ->
            mc !! "api_base" = entry !! "api_base" ->
            let r := (if String.eqb (lower name) "openai"
                      then (Some (OpenAI (init mc (proxy c))), c)
                      else if String.eqb (lower name) "deepseek"
                      then (Some (DeepSeek (init mc (proxy c))), c)
                      else if String.eqb (lower name) "qwen"
                      then (Some (Qwen (init mc (proxy c))), c)
                      else (None, c)).1 in
            (is_Some r <-> lower name ∈ ["openai"; "deepseek"; "qwen"])
            /\ forall m, r = Some m ->
                 family_name m = lower name
                 /\ api_key (attrs_of m) = key
                 /\ model_name (attrs_of m) = default "" (entry !! "model")
                 /\ api_base (attrs_of m) = default "" (entry !! "api_base"))
    as Hdispatch.
  { intros mc c key Hkey Hmodel Hbase. cbv zeta.
    destruct (String.eqb_spec (lower name) "openai") as [->|H1];
      [|destruct (String.eqb_spec (lower name) "deepseek") as [->|H2];
        [|destruct (String.eqb_spec (lower name) "qwen") as [->|H3]]];
      simpl.
    - split; [split; [intros _; by left|by eexists]|].
      intros m [= <-]. simpl. by rewrite Hkey, Hmodel, Hbase.
    - split; [split; [intros _; by right; left|by eexists]|].
      intros m [= <-]. simpl. by rewrite Hkey, Hmodel, Hbase.
    - split; [split; [intros _; by right; right; left|by eexists]|].
      intros m [= <-]. simpl. by rewrite Hkey, Hmodel, Hbase.
    - split; [|done]. split; [by intros [? ?]|].
      intros Hin. exfalso.
      repeat (apply elem_of_cons in Hin as [Hin|Hin]; [done|]).
      by apply elem_of_nil in Hin. }
  destruct (stored_key entry) as [k|] eqn:Hk.
  - rewrite (bool_decide_false (Some k = None)) by done. simpl.
    destruct (Hdispatch entry cfg k (stored_key_lookup _ _ Hk) eq_refl eq_refl)
      as [Hiff Hm].
    split.
    + rewrite Hiff. split.
      * intros Hin. exists entry, k. by rewrite Hk.
      * by intros (? & ? & _ & _ & _ & Hin).
    + intros m entry' Hr [= <-]. rewrite Hk.
      destruct (Hm m Hr) as (? & -> & ? & ?). done.
  - rewrite (bool_decide_true (None = None)) by done.
    destruct (environ_key environ name) as [key|] eqn:Hkey.
    + rewrite (bool_decide_false (Some key = None)) by done.
      rewrite (environ_key_lookup _ _ _ Hkey). simpl.
      destruct (Hdispatch (<["api_key" := key]> entry)
                  (store_api_key name key cfg) key)
        as [Hiff Hm].
      { by rewrite lookup_insert_eq. }
      { by rewrite lookup_insert_ne. }
      { by rewrite lookup_insert_ne. }
      split.
      * rewrite Hiff. split.
        -- intros Hin. exists entry, key. by rewrite Hk.
        -- by intros (? & ? & _ & _ & _ & Hin).
      * intros m entry' Hr [= <-]. rewrite Hk.
        destruct (Hm m Hr) as (? & -> & ? & ?). done.
    + rewrite (bool_decide_true (None = None)) by done. simpl. split.
      * split; [by intros [? ?]|].
        intros (e' & k' & He' & _ & Hav & _). simplify_eq.
        rewrite Hk in Hav. done.
      * done.
Qed.

(** For a provider name that is all ASCII, every case mapping resolves as
    the ASCII one does. *)
Lemma ascii_name_resolves_alike environ name cfg :
  is_ascii name = true ->
  get_model_instance environ name cfg
  = @get_model_instance fixtures.ascii_case environ name cfg.
Proof.
  intros Hname. unfold get_model_instance.
  by rewrite (upper_ascii_text name Hname), (lower_ascii_text name Hname).
Qed.

End Factory.

(** The provider names below are ASCII, so the ASCII case mapping gives what
    every other gives on them. *)
#[local] Existing Instance fixtures.ascii_case.

(** C5 as stated fails: with an empty stored key and the variable set, the
    entry holds the environment's key after the call. *)
Lemma get_model_instance_writes_the_key :
  let cfg := fixtures.one_provider "openai" (fixtures.openai_entry "") in
  let environ : gmap string string := {[ "OPENAI_API_KEY" := "sk-env" ]} in
  let cfg' := (get_model_instance environ "openai" cfg).2 in
  is_Some (get_model_instance environ "openai" cfg).1
  /\ get_model_config "openai" cfg !! "api_key" = Some ""
  /\ get_model_config "openai" cfg' !! "api_key" = Some "sk-env"
  /\ cfg' <> cfg.
Proof.
  cbv zeta. split; [by eexists|]. split; [done|]. split; [done|].
  intros Heq.
  apply (f_equal (fun c => get_model_config "openai" c !! "api_key")) in Heq.
  vm_compute in Heq. discriminate.
Qed.

(** C6 as stated fails: an entry that exists but is an empty dict resolves
    to nothing, though the environment has a key and the name is known. *)
Lemma empty_entry_resolves_to_nothing :
  let cfg := fixtures.one_provider "openai" ∅ in
  let environ : gmap string string := {[ "OPENAI_API_KEY" := "sk-env" ]} in
  models cfg !! "openai" = Some ∅
  /\ environ !! (upper "openai" +:+ "_API_KEY") = Some "sk-env"
  /\ lower "openai" = "openai"
  /\ (get_model_instance environ "openai" cfg).1 = None.
Proof. cbv zeta. do 3 (split; [reflexivity|]). reflexivity. Qed.

Lemma get_model_instance_config_frame_witness :
  let cfg := fixtures.one_provider "openai" (fixtures.openai_entry "sk-stored") in
  let environ : gmap string string := {[ "OPENAI_API_KEY" := "sk-env" ]} in
  (get_model_instance environ "openai" cfg).2 = cfg.
Proof.
  cbv zeta.
  exact (get_model_instance_config_frame {[ "OPENAI_API_KEY" := "sk-env" ]}
           "openai"
           (fixtures.one_provider "openai" (fixtures.openai_entry "sk-stored"))).
Defined.

Lemma get_model_instance_resolves_witness :
  let cfg := fixtures.one_provider "OpenAI" (fixtures.openai_entry "") in
  let environ : gmap string string := {[ "OPENAI_API_KEY" := "sk-env" ]} in
  exists m,
    (get_model_instance environ "OpenAI" cfg).1 = Some m
    /\ family_name m = "openai"
    /\ Some (api_key (attrs_of m)) = Some "sk-env".
Proof.
  cbv zeta.
  destruct (get_model_instance_resolves {[ "OPENAI_API_KEY" := "sk-env" ]}
              "OpenAI"
              (fixtures.one_provider "OpenAI" (fixtures.openai_entry "")))
    as [Hiff Hm].
  destruct (proj2 Hiff) as [m Hr].
  { exists (fixtures.openai_entry ""), "sk-env".
    split; [reflexivity|]. split; [discriminate|]. split; [reflexivity|].
    apply elem_of_cons. left. reflexivity. }
  exists m. split; [exact Hr|].
  destruct (Hm m (fixtures.openai_entry "") Hr eq_refl) as (Hf & Hk & _).
  split; [exact Hf|exact Hk].
Defined.

End models_facts.

(** ** More on the conversation history *)

Module conversation_more.
Import Py Py_facts models conversation conversation_facts notions.

Section Window.
Context {M : Type}.
Implicit Types (st : Conversation M) (r : string) (c : value).

(** X1. When the window has room for more than the pinned message, or
    nothing is pinned, [add_message] leaves exactly
    [min(len + 1, max_history)] messages. *)
Theorem add_message_fills_the_window r c st :
  wf st ->
  (2 <= max_history st)%Z \/ ((1 <= max_history st)%Z /\ pinned st = None) ->
  length (messages (add_message r c st))
  = Nat.min (S (length (messages st))) (Z.to_nat (max_history st)).
Proof.
  intros Hwf. rewrite add_message_length. cbv zeta.
  destruct (Z.gtb_spec (Z.of_nat (S (length (messages st)))) (max_history st))
    as [Hgt|Hle]; [|lia].
  intros Hcase.
  destruct (pinned (mkConversation _ _ _ _)) as [l0|] eqn:Hp.
  - destruct Hcase as [Hmh|[Hmh Hnone]].
    + rewrite slice_from_length_neg by lia. rewrite length_app.
      change (length [length (objects st)]) with 1. lia.
    + exfalso. rewrite pinned_appended_wf in Hp; [congruence|done|].
      intros Hnil. rewrite Hnil in Hgt. simpl in Hgt. lia.
  - destruct Hcase as [Hmh|[Hmh _]];
      rewrite slice_from_length_neg by lia; rewrite length_app;
      change (length [length (objects st)]) with 1; lia.
Qed.

(** X2. What [add_message] evicts is the oldest messages after the pinned
    one: without a pinned message the new list is a suffix of the old one
    with the new message appended; with one (and room for more than it),
    it is the pinned message followed by such a suffix of the rest. *)
Theorem add_message_evicts_the_oldest r c st :
  wf st ->
  ((1 <= max_history st)%Z -> pinned st = None ->
   messages (add_message r c st)
     `suffix_of` (messages st ++ [length (objects st)]))
  /\ (forall l0 rest,
        (2 <= max_history st)%Z -> pinned st = Some l0 ->
        messages st = l0 :: rest ->
        exists kept,
          messages (add_message r c st) = l0 :: kept
          /\ kept `suffix_of` (rest ++ [length (objects st)])).
Proof.
  intros Hwf. split.
  - intros Hmh Hnone. unfold add_message. simpl.
    destruct (Z.gtb_spec (Z.of_nat (length (messages st ++ [length (objects st)])))
                (max_history st)) as [Hgt|Hle]; [|done].
    rewrite length_app in Hgt. simpl in Hgt.
    rewrite pinned_appended_wf; [|done|].
    + rewrite Hnone. simpl. apply slice_from_suffix.
    + intros Hnil. rewrite Hnil in Hgt. simpl in Hgt. lia.
  - intros l0 rest Hmh Hp Hms.
    apply pinned_Some in Hp as (rest0 & m0 & Hms0 & Hl0 & Hr).
    unfold add_message. simpl.
    rewrite (pinned_appended r c st l0 rest0 m0) by done.
    rewrite Hms. simpl.
    destruct (Z.gtb_spec (Z.of_nat (S (length (rest ++ [length (objects st)]))))
                (max_history st)) as [Hgt|Hle]; simpl.
    + rewrite slice_from_neg by lia. simpl.
      replace (S (length (rest ++ [length (objects st)]))
               - Z.to_nat (max_history st - 1))
        with (S (length (rest ++ [length (objects st)])
                 - Z.to_nat (max_history st - 1))) by lia.
      simpl. eexists. split; [done|]. apply suffix_drop.
    + by eexists.
Qed.

(** X3. [max_history = 0] switches the window off: [messages[-0:]] is the
    whole list, so nothing is ever evicted and the history grows by one
    at every call. *)
Theorem zero_max_history_never_evicts (calls : list (string * value)) st :
  max_history st = 0%Z ->
  length (messages (add_messages calls st))
  = length (messages st) + length calls.
Proof.
  revert st. induction calls as [|[r c] calls IH]; intros st Hmh.
  - simpl. lia.
  - simpl. rewrite IH by (by rewrite max_history_add_message).
    assert (messages (add_message r c st)
            = messages st ++ [length (objects st)]) as ->.
    { unfold add_message. simpl. rewrite Hmh.
      destruct (Z.gtb_spec
                  (Z.of_nat (length (messages st ++ [length (objects st)]))) 0)
        as [_|Hle]; [|rewrite length_app in Hle; simpl in Hle; lia].
      destruct (pinned (mkConversation _ _ _ _)) as [l0|] eqn:Hp; simpl.
      - apply pinned_Some in Hp as (rest & m0 & Hms & _). simpl in Hms.
        rewrite Hms. by rewrite slice_from_pos by lia.
      - by rewrite slice_from_zero. }
    rewrite length_app. simpl. lia.
Qed.

End Window.

Section Calls.
Context {M : Type}.
Implicit Types (st : Conversation M) (r : string) (c : value).

Lemma pinned_set_messages st (ms : list loc) l0 m0 rest :
  ms = l0 :: rest -> objects st !! l0 = Some m0 -> role m0 = "system" ->
  pinned (set_messages st ms) = Some l0.
Proof. intros -> Hl0 Hr. apply pinned_Some. exists rest, m0. done. Qed.

Lemma set_system_message_pins c st :
  exists l0 rest,
    messages (set_system_message c st) = l0 :: rest
    /\ objects (set_system_message c st) !! l0 = Some (mkMessage "system" c).
Proof.
  unfold set_system_message. destruct (pinned st) as [l0|] eqn:Hp; simpl.
  - apply pinned_Some in Hp as (rest & m0 & Hms & Hl0 & Hr).
    exists l0, rest. split; [done|].
    rewrite list_lookup_alter_eq, Hl0. simpl. by rewrite Hr.
  - exists (length (objects st)), (messages st). split; [done|].
    by rewrite list_lookup_middle.
Qed.

(** X8. Whatever the history was, [set_system_message(c)] followed by
    [clear_history()] leaves exactly the system message [c]; and a second
    [set_system_message] replaces the content of the first instead of
    stacking another system message. *)
Theorem set_system_message_then_clear c st :
  history (clear_history (set_system_message c st)) = [mkMessage "system" c]
  /\ forall c2,
       messages (set_system_message c2 (set_system_message c st))
       = messages (set_system_message c st)
       /\ head (history (set_system_message c2 (set_system_message c st)))
          = Some (mkMessage "system" c2).
Proof.
  destruct (set_system_message_pins c st) as (l0 & rest & Hms & Hl0).
  assert (pinned (set_system_message c st) = Some l0) as Hp.
  { apply pinned_Some. by exists rest, (mkMessage "system" c). }
  remember (set_system_message c st) as st' eqn:Hst'. clear Hst'.
  split.
  - unfold clear_history. rewrite Hp. unfold history. simpl. by rewrite Hl0.
  - intros c2. unfold set_system_message. rewrite Hp. simpl.
    split; [done|]. unfold history. simpl. rewrite Hms. simpl.
    by rewrite list_lookup_alter_eq, Hl0.
Qed.

(** X9. A system message at index 0 stays there through every call that
    changes the history ([add_message], [set_system_message],
    [clear_history], in any order): the same dict is still first, its role
    is still system, and its content is the one of the last
    [set_system_message] among the calls (the one it had, when there is
    none). *)
Theorem system_message_survives_every_call (calls : list call) st
    (l0 : loc) (rest : list loc) (m0 : Message) :
  messages st = l0 :: rest -> objects st !! l0 = Some m0 ->
  role m0 = "system" ->
  let m' := mkMessage "system" (last_system_content calls (content m0)) in
  exists rest',
    messages (run calls st) = l0 :: rest'
    /\ objects (run calls st) !! l0 = Some m'
    /\ head (history (run calls st)) = Some m'.
Proof.
  cbv zeta. revert st rest m0.
  induction calls as [|k calls IH]; intros st rest m0 Hms Hl0 Hr.
  - simpl. exists rest. destruct m0 as [r0 c0]. simpl in *. subst r0.
    split; [done|]. split; [done|].
    by rewrite (history_cons st l0 rest (mkMessage "system" c0)).
  - simpl. destruct k as [r c|c|]; simpl.
    + destruct (add_message_keeps_head r c st l0 rest m0) as (rest1 & H1 & H2);
        [done..|].
      by apply (IH _ rest1 m0).
    + unfold set_system_message.
      rewrite (proj2 (pinned_Some st l0)) by eauto.
      apply (IH _ rest (mkMessage "system" c)); [done| |done]. simpl.
      rewrite list_lookup_alter_eq, Hl0. simpl. by rewrite Hr.
    + unfold clear_history.
      rewrite (proj2 (pinned_Some st l0)) by eauto.
      by apply (IH _ [] m0).
Qed.

(** X10. In a conversation built from a new one with [max_history >= 2],
    no message dict is referenced twice by the history. *)
Theorem reachable_history_has_no_alias (calls : list call) (m : M) (mh : Z) :
  (2 <= mh)%Z -> NoDup (messages (run calls (init m mh))).
Proof.
  intros Hmh. apply run_NoDup; [apply wf_init|done|apply NoDup_nil_2].
Qed.

Lemma within_bound_step st (k : call) :
  wf st -> (2 <= max_history st)%Z -> within_bound st ->
  within_bound (step st k).
Proof.
  intros Hwf Hmh Hin. destruct k as [r c|c|]; simpl.
  - left. rewrite max_history_add_message. apply add_message_bounded; auto.
  - destruct (set_system_message_pins c st) as (l0 & rest & Hms & Hl0).
    assert (is_Some (pinned (set_system_message c st))) as Hp.
    { exists l0. apply pinned_Some. by exists rest, (mkMessage "system" c). }
    unfold within_bound in *. revert Hp. unfold set_system_message.
    destruct (pinned st) as [l1|] eqn:Hp1; simpl; intros Hp.
    + destruct Hin as [Hle|[Heq _]]; [by left|by right].
    + destruct Hin as [Hle|[_ [? ?]]]; [|done].
      destruct (decide (Z.of_nat (length (messages st)) < max_history st)%Z).
      * left. lia.
      * right. split; [lia|done].
  - left. unfold clear_history. destruct (pinned st); simpl; lia.
Qed.

Lemma run_snoc (calls : list call) (k : call) st :
  run (calls ++ [k]) st = step (run calls st) k.
Proof. unfold run. by rewrite foldl_snoc. Qed.

Lemma within_bound_run (calls : list call) st :
  wf st -> (2 <= max_history st)%Z -> within_bound st ->
  within_bound (run calls st)
  /\ max_history (run calls st) = max_history st.
Proof.
  revert st. induction calls as [|k calls IH]; intros st Hwf Hmh Hin; [done|].
  simpl. destruct (IH (step st k)) as [H1 H2].
  - apply (run_invariant [k]); done.
  - by rewrite max_history_step.
  - by apply within_bound_step.
  - split; [done|]. by rewrite H2, max_history_step.
Qed.

(** X11. In a conversation built from a new one with [max_history >= 2],
    the history never holds more than [max_history + 1] messages, and holds
    at most [max_history] right after every [add_message]. *)
Theorem reachable_history_is_bounded (calls : list call) (m : M) (mh : Z) :
  (2 <= mh)%Z ->
  (Z.of_nat (length (messages (run calls (init m mh)))) <= mh + 1)%Z
  /\ forall r c,
       (Z.of_nat (length (messages (run (calls ++ [AddMessage r c])
                                      (init m mh)))) <= mh)%Z.
Proof.
  intros Hmh.
  destruct (within_bound_run calls (init m mh)) as [Hin Hsame].
  { apply wf_init. }
  { done. }
  { left. simpl. lia. }
  simpl in Hsame. split.
  - destruct Hin as [Hle|[Heq _]]; lia.
  - intros r c. rewrite run_snoc. simpl.
    rewrite <- Hsame at 2. apply add_message_bounded.
    + apply run_invariant, wf_init.
    + left. by rewrite Hsame.
Qed.

End Calls.

Section Exchanges.
Context {M : Type} `{BaseModel M}.
Implicit Types (st : Conversation M) (text : string).

Lemma drain_strs_then (fs : list string) (tl : list value) (stop : option string)
    (written : list string) (acc : string) :
  drain ((VStr <$> fs) ++ tl) stop written acc
  = drain tl stop (written ++ fs) (acc +:+ join fs).
Proof.
  revert written acc. induction fs as [|f fs IH]; intros written acc.
  - simpl. by rewrite app_nil_r, append_nil_r.
  - simpl. rewrite IH. by rewrite <- app_assoc, append_assoc.
Qed.

(** X4. An exchange that fails leaves the user's message in the history and
    no reply: when [generate] raises, when the stream raises after some
    fragments, and when the stream yields something that is not a str
    ([sys.stdout.write] raises on it, whatever follows in the stream). The
    exception reaches the caller and the fragments written before the
    failure stay written. *)
Theorem failed_exchange_keeps_the_question text st :
  let st1 := add_message "user" (VStr text) st in
  (forall stream e,
     generate (model st1) (history st1) stream = Raise e ->
     send_message text stream st = (Raise e, [], st1))
  /\ (forall fs e,
        generate (model st1) (history st1) true
        = Ok (mkGenerator (VStr <$> fs) (Some e)) ->
        send_message text true st = (Raise e, fs, st1))
  /\ (forall fs v rest stop,
        (forall s, v <> VStr s) ->
        generate (model st1) (history st1) true
        = Ok (mkGenerator ((VStr <$> fs) ++ v :: rest) stop) ->
        exists e, send_message text true st = (Raise e, fs, st1)).
Proof.
  cbv zeta. split; [|split].
  - intros [|] e Hgen; unfold send_message; by rewrite Hgen.
  - intros fs e Hgen. unfold send_message. rewrite Hgen. simpl.
    rewrite <- (app_nil_r (VStr <$> fs)), drain_strs_then. done.
  - intros fs v rest stop Hv Hgen. unfold send_message. rewrite Hgen. simpl.
    rewrite drain_strs_then. simpl.
    destruct v as [| | | |s| |]; try by eexists. by destruct (Hv s).
Qed.

(** X5. With [max_history >= 1] the adapter is always asked, streaming or
    not, with a message list that ends with the user's new message: the
    history as it is once that message was added. *)
Theorem adapter_receives_the_question_last text st :
  (1 <= max_history st)%Z ->
  exists pre,
    let asked := pre ++ [mkMessage "user" (VStr text)] in
    let st1 := add_message "user" (VStr text) st in
    history st1 = asked
    /\ send_message text false st
       = match generate (model st) asked false with
         | Raise e => (Raise e, [], st1)
         | Ok v => (Ok (Some v), [], add_message "assistant" v st1)
         end
    /\ send_message text true st
       = match generate (model st) asked true with
         | Raise e => (Raise e, [], st1)
         | Ok g =>
             match drain (yielded g) (raised g) [] "" with
             | (written, Raise e) => (Raise e, written, st1)
             | (written, Ok response_text) =>
                 (Ok None, written,
                  add_message "assistant" (VStr response_text) st1)
             end
         end.
Proof.
  intros Hmh.
  destruct (history_add_message_last "user" (VStr text) st Hmh) as [pre Hpre].
  exists pre. cbv zeta. unfold send_message.
  rewrite Hpre, model_add_message. done.
Qed.

Lemma add_message_keeps_previous r c st (pre : list loc) (x : loc) :
  messages st = pre ++ [x] -> (3 <= max_history st)%Z ->
  exists pre', messages (add_message r c st)
               = pre' ++ [x; length (objects st)].
Proof.
  intros Hms Hmh. unfold add_message. simpl. rewrite Hms.
  rewrite <- app_assoc. simpl.
  destruct (Z.gtb_spec (Z.of_nat (length (pre ++ [x; length (objects st)])))
              (max_history st)) as [Hgt|Hle]; [|by eexists].
  rewrite length_app in Hgt. simpl in Hgt.
  destruct (pinned (mkConversation _ _ _ _)) as [l0|]; simpl.
  - rewrite slice_from_neg by lia. rewrite length_app. simpl.
    rewrite drop_app_le by lia. by eexists (l0 :: _).
  - rewrite slice_from_neg by lia. rewrite length_app. simpl.
    rewrite drop_app_le by lia. by eexists.
Qed.

Lemma omap_last_two (objs : list Message) (a b : Message) :
  omap (fun l => ((objs ++ [a]) ++ [b]) !! l)
    [length objs; length (objs ++ [a])] = [a; b].
Proof.
  assert (((objs ++ [a]) ++ [b]) !! length objs = Some a) as H1.
  { rewrite <- app_assoc. by apply list_lookup_middle. }
  assert (((objs ++ [a]) ++ [b]) !! length (objs ++ [a]) = Some b) as H2.
  { by apply list_lookup_middle. }
  simpl. by rewrite H1, H2.
Qed.

(** X6. With [max_history >= 3], a completed exchange leaves a history
    that ends with the user's message followed by the reply. *)
Theorem completed_exchange_ends_the_history text st (v : value) :
  (3 <= max_history st)%Z ->
  generate (model (add_message "user" (VStr text) st))
    (history (add_message "user" (VStr text) st)) false = Ok v ->
  exists pre,
    history (send_message text false st).2
    = pre ++ [mkMessage "user" (VStr text); mkMessage "assistant" v].
Proof.
  intros Hmh Hgen. unfold send_message. rewrite Hgen. simpl.
  destruct (add_message_last "user" (VStr text) st) as [p1 Hp1]; [lia|].
  destruct (add_message_keeps_previous "assistant" v
              (add_message "user" (VStr text) st) p1 (length (objects st)))
    as [p2 Hp2]; [done|by rewrite max_history_add_message|].
  unfold history. rewrite Hp2, omap_app.
  rewrite objects_add_message, objects_add_message.
  rewrite omap_last_two. by eexists.
Qed.

Lemma add_message_two_slots r (c : value) st (l0 : loc) (rest : list loc)
    (m0 : Message) :
  max_history st = 2%Z -> messages st = l0 :: rest ->
  objects st !! l0 = Some m0 -> role m0 = "system" ->
  messages (add_message r c st) = [l0; length (objects st)].
Proof.
  intros Hmh Hms Hl0 Hr. unfold add_message. simpl.
  rewrite (pinned_appended r c st l0 rest m0) by done.
  rewrite Hmh, Hms. simpl.
  destruct (Z.gtb_spec (Z.of_nat (S (length (rest ++ [length (objects st)])))) 2)
    as [Hgt|Hle]; simpl.
  - rewrite (slice_from_neg 1) by lia.
    replace (length (l0 :: rest ++ [length (objects st)]) - Z.to_nat 1)
      with (S (length rest))
      by (simpl; rewrite length_app; simpl; lia).
    change (drop (S (length rest)) (l0 :: rest ++ [length (objects st)]))
      with (drop (length rest) (rest ++ [length (objects st)])).
    by rewrite drop_app_length.
  - rewrite length_app in Hle. simpl in Hle.
    destruct rest; [done|simpl in Hle; lia].
Qed.

Lemma two_slots_after_the_reply text st (v : value)
    (l0 : loc) (rest : list loc) (m0 : Message) :
  max_history st = 2%Z -> messages st = l0 :: rest ->
  objects st !! l0 = Some m0 -> role m0 = "system" ->
  history (add_message "assistant" v (add_message "user" (VStr text) st))
  = [m0; mkMessage "assistant" v].
Proof.
  intros Hmh Hms Hl0 Hr.
  pose proof (add_message_two_slots "user" (VStr text) st l0 rest m0
                Hmh Hms Hl0 Hr) as H1.
  assert (objects (add_message "user" (VStr text) st) !! l0 = Some m0) as Hl1.
  { rewrite objects_add_message. by apply lookup_app_l_Some. }
  pose proof (add_message_two_slots "assistant" v
                (add_message "user" (VStr text) st) l0
                [length (objects st)] m0) as H2.
  rewrite max_history_add_message in H2.
  specialize (H2 Hmh H1 Hl1 Hr).
  unfold history. rewrite H2. simpl.
  rewrite objects_add_message.
  rewrite (lookup_app_l_Some _ _ _ _ Hl1).
  by rewrite list_lookup_middle.
Qed.

(** X7. With [max_history = 2] and a system message the window has one
    free slot: a completed exchange, streaming or not, leaves only the
    system message and the reply, the user's message being evicted when
    the reply is stored. *)
Theorem two_slot_window_drops_the_question text st
    (l0 : loc) (rest : list loc) (m0 : Message) :
  max_history st = 2%Z -> messages st = l0 :: rest ->
  objects st !! l0 = Some m0 -> role m0 = "system" ->
  let st1 := add_message "user" (VStr text) st in
  (forall v,
     generate (model st1) (history st1) false = Ok v ->
     history (send_message text false st).2 = [m0; mkMessage "assistant" v])
  /\ (forall fs,
        generate (model st1) (history st1) true
        = Ok (mkGenerator (VStr <$> fs) None) ->
        history (send_message text true st).2
        = [m0; mkMessage "assistant" (VStr (join fs))]).
Proof.
  intros Hmh Hms Hl0 Hr. cbv zeta. split.
  - intros v Hgen. unfold send_message. rewrite Hgen. simpl.
    by apply (two_slots_after_the_reply text st v l0 rest m0).
  - intros fs Hgen. unfold send_message. rewrite Hgen. simpl.
    rewrite drain_strs. simpl.
    by apply (two_slots_after_the_reply text st _ l0 rest m0).
Qed.

End Exchanges.

Lemma failed_exchange_keeps_the_question_witness :
  let st := mkConversation fixtures_more.flaky 10 [] [] in
  send_message "hi" true st
  = (Raise "Connection reset by peer", ["Hel"],
     add_message "user" (VStr "hi") st)
  /\ send_message "hi" false st
     = (Raise "Connection refused", [], add_message "user" (VStr "hi") st).
Proof.
  cbv zeta.
  destruct (failed_exchange_keeps_the_question "hi"
              (mkConversation fixtures_more.flaky 10 [] []))
    as (Hraise & Hstream & _).
  split.
  - exact (Hstream ["Hel"] "Connection reset by peer" eq_refl).
  - exact (Hraise false "Connection refused" eq_refl).
Defined.

(** The text of the [TypeError] for two fragments that are not strs. *)
Example drain_not_a_str :
  drain [VStr "Hel"; VNone] None [] ""
  = (["Hel"], Raise "write() argument must be str, not None")
  /\ drain [VFloat (S754_finite false 3 (-1))] None [] ""
     = ([], Raise "write() argument must be str, not float").
Proof. split; reflexivity. Qed.

Lemma adapter_receives_the_question_last_witness :
  let st := mkConversation fixtures_more.counter 2 [0; 1]
              [mkMessage "user" (VStr "hi"); mkMessage "assistant" (VStr "1")] in
  exists pre,
    history (add_message "user" (VStr "again") st)
    = pre ++ [mkMessage "user" (VStr "again")]
    /\ (send_message "again" false st).1.1 = Ok (Some (VStr "2"))
    /\ (send_message "again" true st).1.2 = ["2"].
Proof.
  cbv zeta.
  destruct (adapter_receives_the_question_last "again"
              (mkConversation fixtures_more.counter 2 [0; 1]
                 [mkMessage "user" (VStr "hi");
                  mkMessage "assistant" (VStr "1")]))
    as (pre & Hasked & Hplain & Hstream); [simpl; lia|].
  exists pre. split; [exact Hasked|].
  rewrite Hplain, Hstream, <- Hasked. split; reflexivity.
Defined.

Lemma completed_exchange_ends_the_history_witness :
  let st := mkConversation fixtures.hello 3 [] [] in
  exists pre,
    history (send_message "hi" false st).2
    = pre ++ [mkMessage "user" (VStr "hi"); mkMessage "assistant" (VStr "Hello")].
Proof.
  cbv zeta.
  apply (completed_exchange_ends_the_history "hi"
           (mkConversation fixtures.hello 3 [] []) (VStr "Hello"));
    [simpl; lia | reflexivity].
Defined.

Lemma two_slot_window_drops_the_question_witness :
  let sys := mkMessage "system" (VStr "be brief") in
  let st := mkConversation fixtures.hello 2 [0] [sys] in
  history (send_message "hi" false st).2
  = [sys; mkMessage "assistant" (VStr "Hello")]
  /\ history (send_message "hi" true st).2
     = [sys; mkMessage "assistant" (VStr "Hello")].
Proof.
  cbv zeta.
  destruct (two_slot_window_drops_the_question "hi"
              (mkConversation fixtures.hello 2 [0]
                 [mkMessage "system" (VStr "be brief")])
              0 [] (mkMessage "system" (VStr "be brief"))
              eq_refl eq_refl eq_refl eq_refl) as [Hplain Hstream].
  split.
  - exact (Hplain (VStr "Hello") eq_refl).
  - exact (Hstream ["Hel"; "lo"] eq_refl).
Defined.

Lemma system_message_survives_every_call_witness :
  let sys := mkMessage "system" (VStr "be brief") in
  let st := mkConversation fixtures.hello 2 [0] [sys] in
  let calls := [AddMessage "user" (VStr "hi"); SetSystemMessage (VStr "be long");
                AddMessage "assistant" (VStr "Hello"); ClearHistory] in
  exists rest',
    messages (run calls st) = 0 :: rest'
    /\ objects (run calls st) !! 0 = Some (mkMessage "system" (VStr "be long"))
    /\ head (history (run calls st))
       = Some (mkMessage "system" (VStr "be long")).
Proof.
  cbv zeta.
  apply (system_message_survives_every_call
           [AddMessage "user" (VStr "hi"); SetSystemMessage (VStr "be long");
            AddMessage "assistant" (VStr "Hello"); ClearHistory]
           (mkConversation fixtures.hello 2 [0]
              [mkMessage "system" (VStr "be brief")])
           0 [] (mkMessage "system" (VStr "be brief")));
    reflexivity.
Defined.

Lemma reachable_history_has_no_alias_witness :
  NoDup (messages (run [SetSystemMessage (VStr "be brief");
                        AddMessage "user" (VStr "hi");
                        AddMessage "assistant" (VStr "Hello")]
                     (init fixtures.hello 2))).
Proof.
  apply (reachable_history_has_no_alias _ fixtures.hello 2). lia.
Defined.

Lemma reachable_history_is_bounded_witness :
  let calls := [AddMessage "user" (VStr "hi");
                AddMessage "assistant" (VStr "Hello");
                SetSystemMessage (VStr "be brief")] in
  (Z.of_nat (length (messages (run calls (init fixtures.hello 2)))) <= 2 + 1)%Z.
Proof.
  cbv zeta.
  apply (proj1 (reachable_history_is_bounded _ fixtures.hello 2 ltac:(lia))).
Defined.

Lemma add_message_fills_the_window_witness :
  let st := mkConversation fixtures.hello 2 [0; 1]
              [mkMessage "system" (VStr "be brief");
               mkMessage "user" (VStr "hi")] in
  length (messages (add_message "assistant" (VStr "Hello") st)) = 2.
Proof.
  cbv zeta.
  apply (add_message_fills_the_window "assistant" (VStr "Hello")
           (mkConversation fixtures.hello 2 [0; 1]
              [mkMessage "system" (VStr "be brief");
               mkMessage "user" (VStr "hi")])).
  - repeat constructor.
  - left. simpl. lia.
Defined.

Lemma add_message_evicts_the_oldest_witness :
  let st := mkConversation fixtures.hello 2 [0; 1]
              [mkMessage "user" (VStr "hi");
               mkMessage "assistant" (VStr "Hello")] in
  messages (add_message "user" (VStr "and then?") st) `suffix_of` [0; 1; 2].
Proof.
  cbv zeta.
  apply (proj1 (add_message_evicts_the_oldest "user" (VStr "and then?")
                  (mkConversation fixtures.hello 2 [0; 1]
                     [mkMessage "user" (VStr "hi");
                      mkMessage "assistant" (VStr "Hello")])
                  ltac:(repeat constructor)));
    [simpl; lia | reflexivity].
Defined.

Lemma zero_max_history_never_evicts_witness :
  let st := mkConversation fixtures.hello 0 [] [] in
  length (messages (add_messages
                      [("user", VStr "a"); ("assistant", VStr "b");
                       ("user", VStr "c")] st)) = 3.
Proof.
  cbv zeta.
  exact (zero_max_history_never_evicts
           [("user", VStr "a"); ("assistant", VStr "b"); ("user", VStr "c")]
           (mkConversation fixtures.hello 0 [] []) eq_refl).
Defined.

End conversation_more.

(** ** More on the adapters *)

Module models_more.
Import Py Py_facts config models models_facts notions.

(** X12. [get_proxies] gives no proxy at all unless [enabled] is set and
    true; when it is, it gives exactly the [http] and [https] entries of
    the proxy configuration that are set and not empty, and no other key. *)
Theorem get_proxies_lookup (self : Attrs) (k : string) :
  get_proxies self !! k =
    if truthy (default (VBool false) (proxy_config self !! "enabled"))
       && bool_decide (k = "http" \/ k = "https")
    then match proxy_config self !! k with
         | Some v => if truthy v then Some v else None
         | None => None
         end
    else None.
Proof.
  unfold get_proxies.
  destruct (truthy (default (VBool false) (proxy_config self !! "enabled")));
    simpl; [|done].
  destruct (decide (k = "http")) as [->|Hh].
  { rewrite bool_decide_true by auto.
    destruct (proxy_config self !! "https") as [v2|];
      [destruct (truthy v2); [rewrite lookup_insert_ne by done|]|];
      (destruct (proxy_config self !! "http") as [v1|];
       [destruct (truthy v1); [by rewrite lookup_insert_eq|done]|done]). }
  destruct (decide (k = "https")) as [->|Hs].
  { rewrite bool_decide_true by auto.
    destruct (proxy_config self !! "https") as [v2|];
      [destruct (truthy v2); [by rewrite lookup_insert_eq|]|];
      (destruct (proxy_config self !! "http") as [v1|];
       [destruct (truthy v1); [by rewrite lookup_insert_ne|done]|done]). }
  rewrite bool_decide_false by (intros [?|?]; done).
  destruct (proxy_config self !! "https") as [v2|];
    [destruct (truthy v2); [rewrite lookup_insert_ne by done|]|];
    (destruct (proxy_config self !! "http") as [v1|];
     [destruct (truthy v1); [by rewrite lookup_insert_ne|done]|done]).
Qed.

Section Adapters.
Context `{World}.
Implicit Types (m : Model) (messages : list Message) (response : Response).
Implicit Types (lines pre rest : list string) (e : string).
Implicit Types (stop : option string).

Lemma append_nonempty (a : ascii) (s t : string) :
  String.eqb (String a s +:+ t) "" = false.
Proof. reflexivity. Qed.

Lemma status_error_truthy response : truthy (VStr (status_error response)) = true.
Proof. reflexivity. Qed.


(** X14. A transport error not streaming becomes the reply, prefixed by
    the family's text; a DeepSeek adapter reports it as an OpenAI
    failure. *)
Theorem transport_error_is_the_reply m messages e :
  (forall req, post req = Raise e) ->
  Model_generate m messages false
  = Ok (VStr ((match m with
               | Qwen _ => "通义千问API请求失败："
               | _ => "OpenAI API请求失败："
               end) +:+ e)).
Proof.
  intros Hpost.
  destruct m as [self|self|self]; simpl;
    unfold OpenAIModel.generate, OpenAIModel._non_stream_generate,
      QwenModel.generate, QwenModel._non_stream_generate;
    by rewrite Hpost.
Qed.

Lemma openai_stream_lines_truthy lines stop :
  Forall (fun v => truthy v = true)
    (yielded (OpenAIModel.stream_lines lines stop)).
Proof.
  induction lines as [|line lines IH]; [by destruct stop; constructor|]. simpl.
  destruct (String.eqb line ""); [done|].
  destruct (decode_utf8 line) as [s|e]; [|constructor].
  destruct (String.eqb (OpenAIModel.strip_data s) "[DONE]"); [constructor|].
  destruct (json_loads (OpenAIModel.strip_data s)) as [d|e]; [|done]. simpl.
  destruct (OpenAIModel.delta_content d) as [[c|]|e] eqn:Hd; [|done..].
  simpl. constructor; [|done].
  by apply delta_content_Some in Hd as [_ ?].
Qed.

Lemma qwen_stream_lines_truthy lines stop :
  Forall (fun v => truthy v = true)
    (yielded (QwenModel.stream_lines lines stop)).
Proof.
  induction lines as [|line lines IH]; [by destruct stop; constructor|]. simpl.
  destruct (String.eqb line ""); [done|].
  destruct (_ <- decode_utf8 line;; _) as [v|e]; [|done].
  destruct (truthy v) eqn:Hv; [|done]. simpl. by constructor.
Qed.

(** X15. No adapter ever yields an empty fragment: everything a stream
    yields is true in Python's sense (for a str: not empty), whatever the
    server sends. *)
Theorem stream_never_yields_empty m messages (g : generator value) :
  Model_generate m messages true = Ok g ->
  Forall (fun v => truthy v = true) (yielded g).
Proof.
  destruct m as [self|self|self]; simpl;
    unfold OpenAIModel.generate, OpenAIModel._stream_generate,
      QwenModel.generate, QwenModel._stream_generate;
    intros [= <-];
    (destruct (post _) as [response|e]; [|constructor]);
    (destruct (negb _);
     [repeat constructor
     |first [apply openai_stream_lines_truthy|apply qwen_stream_lines_truthy]]).
Qed.

(** X16. Fragments come out as their lines come in: what the
    OpenAI-compatible loop yields for the first lines of a body is a
    prefix of what it yields for the whole body, however the one and the
    other end. *)
Theorem stream_yields_in_line_order pre rest stop (stop' : option string) :
  yielded (OpenAIModel.stream_lines pre stop)
    `prefix_of` yielded (OpenAIModel.stream_lines (pre ++ rest) stop').
Proof.
  induction pre as [|line pre IH]; [destruct stop; apply prefix_nil|]. simpl.
  destruct (String.eqb line ""); [done|].
  destruct (decode_utf8 line) as [s|e]; [|done].
  destruct (String.eqb (OpenAIModel.strip_data s) "[DONE]"); [done|].
  destruct (_ <- json_loads _;; _) as [[c|]|e]; [|done..].
  simpl. by apply prefix_cons.
Qed.

(** X17. The other family has no sentinel and no line can stop its
    stream: the loop goes through every line the body delivers and ends as
    the body ends, normally when it was delivered whole and with the
    exception of [iter_lines] when the connection broke, and in no other
    way. What it yields is what the first lines give followed by what the
    rest gives. *)
Theorem qwen_stream_ends_with_the_body pre rest stop :
  QwenModel.stream_lines (pre ++ rest) stop
  = mkGenerator (yielded (QwenModel.stream_lines pre None)
                 ++ yielded (QwenModel.stream_lines rest None)) stop.
Proof.
  induction pre as [|line pre IH].
  - simpl. induction rest as [|line rest IH]; [by destruct stop|]. simpl.
    destruct (String.eqb line ""); [done|].
    destruct (_ <- decode_utf8 line;; _) as [v|e]; [|done].
    destruct (truthy v); [|done].
    rewrite IH at 1. done.
  - simpl. destruct (String.eqb line ""); [done|].
    destruct (_ <- decode_utf8 line;; _) as [v|e]; [|done].
    destruct (truthy v); [|done].
    rewrite IH. done.
Qed.

(** X18. Empty lines (the keep-alives of a streamed body) change nothing,
    for either family. *)
Theorem empty_lines_are_ignored lines stop :
  OpenAIModel.stream_lines (filter (fun l => l <> "") lines) stop
  = OpenAIModel.stream_lines lines stop
  /\ QwenModel.stream_lines (filter (fun l => l <> "") lines) stop
     = QwenModel.stream_lines lines stop.
Proof.
  split.
  - induction lines as [|line lines IH]; [done|].
    rewrite filter_cons. destruct (decide (line <> "")) as [Hne|Heq].
    + simpl. destruct (String.eqb_spec line ""); [done|]. by rewrite IH.
    + simpl. destruct (String.eqb_spec line ""); [done|].
      exfalso. by apply Heq.
  - induction lines as [|line lines IH]; [done|].
    rewrite filter_cons. destruct (decide (line <> "")) as [Hne|Heq].
    + simpl. destruct (String.eqb_spec line ""); [done|]. by rewrite IH.
    + simpl. destruct (String.eqb_spec line ""); [done|].
      exfalso. by apply Heq.
Qed.

(** X19. Not streaming, with status 200 and a body whose [choices] is a
    list starting with an object, the OpenAI-compatible reply is the value
    at [choices[0].message.content], whatever it is; when [message] or
    [content] is missing the reply is the parse-error text naming the
    missing key, not an empty reply and not an exception. *)
Theorem openai_reply_is_the_message_content (self : Attrs) messages response
    (kv choice : gmap string value) (others : list value) :
  (forall req, post req = Ok response) ->
  status_code response = 200%Z ->
  json_loads (text response) = Ok (VDict kv) ->
  kv !! "choices" = Some (VList (VDict choice :: others)) ->
  match choice !! "message" with
  | None =>
      OpenAIModel.generate self messages false
      = Ok (VStr (parse_error "'message'"))
  | Some (VDict message) =>
      OpenAIModel.generate self messages false
      = Ok (default (VStr (parse_error "'content'")) (message !! "content"))
  | Some _ =>
      exists e, OpenAIModel.generate self messages false
                = Ok (VStr (parse_error e))
  end.
Proof.
  intros Hpost Hst Hj Hch.
  unfold OpenAIModel.generate, OpenAIModel._non_stream_generate.
  rewrite Hpost. simpl. rewrite Hst. simpl.
  unfold OpenAIModel.message_content, response_json. rewrite Hj. simpl.
  rewrite Hch. simpl.
  destruct (choice !! "message") as [[| | | | | |message]|]; simpl; eauto.
  by destruct (message !! "content").
Qed.

(** X20. Not streaming, with status 200, the reply of the other family is
    the value at [output.text] of the body; a body that is an object
    without [output], or whose [output] has no [text], gives the empty
    string; a body or an [output] that is not an object gives the
    parse-error text. *)
Theorem qwen_reply_is_the_output_text (self : Attrs) messages response
    (d : value) :
  (forall req, post req = Ok response) ->
  status_code response = 200%Z ->
  json_loads (text response) = Ok d ->
  QwenModel.generate self messages false
  = Ok (match d with
        | VDict kv =>
            match kv !! "output" with
            | None => VStr ""
            | Some (VDict output) => default (VStr "") (output !! "text")
            | Some other =>
                VStr (parse_error ("'" +:+ type_name other
                                   +:+ "' object has no attribute 'get'"))
            end
        | _ => VStr (parse_error ("'" +:+ type_name d
                                  +:+ "' object has no attribute 'get'"))
        end).
Proof.
  intros Hpost Hst Hj.
  unfold QwenModel.generate, QwenModel._non_stream_generate.
  rewrite Hpost. simpl. rewrite Hst. simpl.
  unfold response_json. rewrite Hj. simpl.
  unfold QwenModel.output_text.
  destruct d as [| | | | | |kv]; try done. simpl.
  destruct (kv !! "output") as [[| | | | | |output]|]; try done.
Qed.

End Adapters.

(** *** The factory, called again *)

Section Factory.
Context `{Str}.
Implicit Types (environ entry : gmap string string) (name key : string).
Implicit Types (cfg : Config).

Lemma stored_key_not_empty entry key : stored_key entry = Some key -> entry <> ∅.
Proof. intros Hk ->. unfold stored_key in Hk. by rewrite lookup_empty in Hk. Qed.

Lemma get_model_instance_stored environ name cfg entry key :
  models cfg !! name = Some entry -> stored_key entry = Some key ->
  get_model_instance environ name cfg = (dispatch name entry (proxy cfg), cfg).
Proof.
  intros He Hk. unfold get_model_instance, dispatch.
  rewrite (get_model_config_Some name cfg entry He).
  rewrite (bool_decide_false (entry = ∅)) by by eapply stored_key_not_empty.
  rewrite falsy_stored_key, Hk.
  rewrite (bool_decide_false (Some key = None)) by done.
  by repeat case_match.
Qed.

Lemma get_model_instance_fallback environ name cfg entry key :
  models cfg !! name = Some entry -> entry <> ∅ ->
  stored_key entry = None -> environ_key environ name = Some key ->
  get_model_instance environ name cfg
  = (dispatch name (<["api_key" := key]> entry) (proxy cfg),
     store_api_key name key cfg).
Proof.
  intros He Hne Hk Henv. unfold get_model_instance, dispatch.
  rewrite (get_model_config_Some name cfg entry He).
  rewrite (bool_decide_false (entry = ∅)) by done.
  rewrite falsy_stored_key, Hk.
  rewrite (bool_decide_true (None = None)) by done.
  rewrite falsy_environ_key, Henv.
  rewrite (bool_decide_false (Some key = None)) by done.
  rewrite (environ_key_lookup _ _ _ Henv). simpl.
  by repeat case_match.
Qed.

Lemma environ_key_not_empty environ name key :
  environ_key environ name = Some key -> String.eqb key "" = false.
Proof.
  unfold environ_key. destruct (environ !! _) as [k|]; [|done].
  destruct (String.eqb k "") eqn:Hk; [done|]. by intros [= <-].
Qed.

Lemma get_model_instance_Some environ name cfg m :
  (get_model_instance environ name cfg).1 = Some m ->
  exists entry,
    models cfg !! name = Some entry /\ entry <> ∅
    /\ (is_Some (stored_key entry)
        \/ (stored_key entry = None /\ is_Some (environ_key environ name))).
Proof.
  unfold get_model_instance.
  destruct (models cfg !! name) as [entry|] eqn:He.
  2:{ rewrite (get_model_config_None name cfg He).
      by rewrite bool_decide_true. }
  rewrite (get_model_config_Some name cfg entry He).
  case_bool_decide as Hne; [done|].
  rewrite falsy_stored_key, falsy_environ_key.
  intros Hr. exists entry. split; [done|]. split; [done|].
  destruct (stored_key entry) as [k|]; [left; by eexists|right].
  split; [done|].
  destruct (environ_key environ name) as [k|]; [by eexists|].
  rewrite !(bool_decide_true (None = None)) in Hr by done. done.
Qed.

(** X21. A key taken from the environment sticks: once
    [get_model_instance] has returned an adapter, calling it again on the
    configuration it left returns the same adapter and changes nothing,
    whatever the environment then holds, even without the variable. *)
Theorem resolving_again_gives_the_same_adapter
    environ (environ2 : gmap string string) name cfg (m : Model) :
  (get_model_instance environ name cfg).1 = Some m ->
  get_model_instance environ2 name (get_model_instance environ name cfg).2
  = (Some m, (get_model_instance environ name cfg).2).
Proof.
  intros Hr.
  destruct (get_model_instance_Some _ _ _ _ Hr)
    as (entry & He & Hne & [[k Hk]|[Hk [k Henv]]]).
  - rewrite (get_model_instance_stored environ name cfg entry k He Hk) in *.
    simpl in *.
    rewrite (get_model_instance_stored environ2 name cfg entry k He Hk).
    by rewrite Hr.
  - rewrite (get_model_instance_fallback environ name cfg entry k He Hne Hk Henv)
      in *.
    simpl in *.
    assert (models (store_api_key name k cfg) !! name
            = Some (<["api_key" := k]> entry)) as He2.
    { unfold store_api_key. simpl.
      by rewrite lookup_insert_eq, (get_model_config_Some name cfg entry He). }
    assert (stored_key (<["api_key" := k]> entry) = Some k) as Hk2.
    { unfold stored_key. rewrite lookup_insert_eq.
      by rewrite (environ_key_not_empty _ _ _ Henv). }
    rewrite (get_model_instance_stored environ2 name _ _ k He2 Hk2).
    by rewrite <- Hr.
Qed.

(** X22. A stored key is never overridden by the environment: when the
    entry has a non-empty [api_key], the result does not depend on the
    environment, the adapter holds the stored key, and the configuration
    is left as it was. *)
Theorem stored_key_wins_over_the_environment
    environ (environ2 : gmap string string) name cfg entry key :
  models cfg !! name = Some entry -> stored_key entry = Some key ->
  get_model_instance environ name cfg = get_model_instance environ2 name cfg
  /\ (get_model_instance environ name cfg).2 = cfg
  /\ forall m, (get_model_instance environ name cfg).1 = Some m ->
               api_key (attrs_of m) = key.
Proof.
  intros He Hk.
  rewrite (get_model_instance_stored environ name cfg entry key He Hk).
  rewrite (get_model_instance_stored environ2 name cfg entry key He Hk).
  split; [done|]. split; [done|]. simpl. unfold dispatch.
  pose proof (stored_key_lookup _ _ Hk) as Hl.
  intros m Hm. repeat case_match; simplify_eq; simpl; by rewrite Hl.
Qed.

End Factory.

(** *** Witnesses *)

#[local] Existing Instance fixtures.ascii_case.


Lemma transport_error_is_the_reply_witness :
  @Model_generate (fixtures.fake_world (Raise "Connection refused"))
    (DeepSeek fixtures.openai_attrs) [mkMessage "user" (VStr "hi")] false
  = Ok (VStr "OpenAI API请求失败：Connection refused").
Proof.
  apply (@transport_error_is_the_reply
           (fixtures.fake_world (Raise "Connection refused"))
           (DeepSeek fixtures.openai_attrs) [mkMessage "user" (VStr "hi")]
           "Connection refused").
  reflexivity.
Defined.

Lemma stream_never_yields_empty_witness :
  Forall (fun v => truthy v = true) [VStr "Hel"; VStr "lo"].
Proof.
  apply (@stream_never_yields_empty
           (fixtures.fake_world (Ok fixtures.sse_response))
           (OpenAI fixtures.openai_attrs) [mkMessage "user" (VStr "hi")]
           (mkGenerator [VStr "Hel"; VStr "lo"] None)).
  reflexivity.
Defined.

Lemma openai_reply_is_the_message_content_witness :
  let body : gmap string value :=
    {[ "choices" := VList [VDict {[ "finish_reason" := VStr "stop" ]}] ]} in
  let W := {| post := fun _ => Ok fixtures.html_response;
              json_loads := fun _ => Ok (VDict body);
              decode_utf8 := fun line => Ok line |} in
  @OpenAIModel.generate W fixtures.openai_attrs
    [mkMessage "user" (VStr "hi")] false
  = Ok (VStr (parse_error "'message'")).
Proof.
  cbv zeta.
  exact (@openai_reply_is_the_message_content
           {| post := fun _ => Ok fixtures.html_response;
              json_loads := fun _ =>
                Ok (VDict {[ "choices" :=
                               VList [VDict {[ "finish_reason" := VStr "stop" ]}] ]});
              decode_utf8 := fun line => Ok line |}
           fixtures.openai_attrs [mkMessage "user" (VStr "hi")]
           fixtures.html_response _ {[ "finish_reason" := VStr "stop" ]} []
           (fun _ => eq_refl) eq_refl eq_refl eq_refl).
Defined.

Lemma qwen_reply_is_the_output_text_witness :
  let W := {| post := fun _ => Ok fixtures.html_response;
              json_loads := fun _ => Ok (VDict {[ "code" := VStr "Throttling" ]});
              decode_utf8 := fun line => Ok line |} in
  @QwenModel.generate W fixtures.openai_attrs
    [mkMessage "user" (VStr "hi")] false
  = Ok (VStr "").
Proof.
  cbv zeta.
  exact (@qwen_reply_is_the_output_text
           {| post := fun _ => Ok fixtures.html_response;
              json_loads := fun _ => Ok (VDict {[ "code" := VStr "Throttling" ]});
              decode_utf8 := fun line => Ok line |}
           fixtures.openai_attrs [mkMessage "user" (VStr "hi")]
           fixtures.html_response _ (fun _ => eq_refl) eq_refl eq_refl).
Defined.

(** A body that is a number with a fraction is a float to the decoder. *)
Example qwen_reply_for_a_float_body :
  let W := {| post := fun _ => Ok fixtures.html_response;
              json_loads := fun _ => Ok (VFloat (S754_finite false 3 (-1)));
              decode_utf8 := fun line => Ok line |} in
  @QwenModel.generate W fixtures.openai_attrs
    [mkMessage "user" (VStr "hi")] false
  = Ok (VStr (parse_error "'float' object has no attribute 'get'")).
Proof. reflexivity. Qed.

(** A body that breaks off after its first record: the fragment is
    yielded, then the exception of the iterator ends the stream, for both
    families; with the sentinel before the break the stream ends
    normally. *)
Example broken_body_is_raised :
  let W := fixtures.fake_world (Ok fixtures_more.broken_response) in
  @Model_generate W (OpenAI fixtures.openai_attrs)
    [mkMessage "user" (VStr "hi")] true
  = Ok (mkGenerator [VStr "Hel"] (Some "Connection broken: IncompleteRead"))
  /\ raised (@QwenModel.stream_lines W [] (Some "Connection broken: IncompleteRead"))
     = Some "Connection broken: IncompleteRead"
  /\ @OpenAIModel.stream_lines W [fixtures.delta_line "Hel"; "data: [DONE]"]
       (Some "Connection broken: IncompleteRead")
     = mkGenerator [VStr "Hel"] None.
Proof. cbv zeta. split; [reflexivity|]. split; reflexivity. Qed.

Lemma resolving_again_gives_the_same_adapter_witness :
  let cfg := fixtures.one_provider "openai" (fixtures.openai_entry "") in
  let environ : gmap string string := {[ "OPENAI_API_KEY" := "sk-env" ]} in
  let m := OpenAI (init (fixtures.openai_entry "sk-env") fixtures.no_proxy) in
  get_model_instance ∅ "openai" (get_model_instance environ "openai" cfg).2
  = (Some m, (get_model_instance environ "openai" cfg).2).
Proof.
  cbv zeta.
  apply (resolving_again_gives_the_same_adapter
           {[ "OPENAI_API_KEY" := "sk-env" ]} ∅ "openai"
           (fixtures.one_provider "openai" (fixtures.openai_entry ""))).
  vm_compute. reflexivity.
Defined.

Lemma stored_key_wins_over_the_environment_witness :
  let cfg := fixtures.one_provider "openai" (fixtures.openai_entry "sk-stored") in
  get_model_instance {[ "OPENAI_API_KEY" := "sk-env" ]} "openai" cfg
  = get_model_instance ∅ "openai" cfg.
Proof.
  cbv zeta.
  apply (stored_key_wins_over_the_environment
           {[ "OPENAI_API_KEY" := "sk-env" ]} ∅ "openai"
           (fixtures.one_provider "openai" (fixtures.openai_entry "sk-stored"))
           (fixtures.openai_entry "sk-stored") "sk-stored");
    reflexivity.
Defined.

End models_more.

(** ** The configuration file *)

Module config_file_facts.
Import Py Py_facts config_file fixtures_more.

Implicit Types (fs : Files) (kv cfg : gmap string value) (config : value).
Implicit Types (items : list (string * value)) (k : string).

Lemma with_dir_id fs : dir_exists fs = true -> with_dir fs = fs.
Proof. destruct fs as [d m f o j t]. simpl. by intros ->. Qed.

(** The three ways a write can go. *)
Lemma write_json_whole (v : value) fs (u u' : unit) :
  open_w fs = Ok u -> json_dump fs v = Ok u' ->
  write_json v fs = (Ok tt, with_file v fs).
Proof. intros Ho Hd. unfold write_json. by rewrite Ho, Hd. Qed.

Lemma write_json_torn (v : value) fs (u : unit) (e : string) :
  open_w fs = Ok u -> json_dump fs v = Raise e ->
  write_json v fs = (Raise e, with_content (torn fs v) fs).
Proof. intros Ho Hd. unfold write_json. by rewrite Ho, Hd. Qed.

Lemma write_json_closed (v : value) fs (e : string) :
  open_w fs = Raise e -> write_json v fs = (Raise e, fs).
Proof. intros Ho. unfold write_json. by rewrite Ho. Qed.


(** On a dict the loop adds the missing keys and touches no other. *)
Lemma fill_dict items kv :
  exists cfg,
    fill items (VDict kv) = Ok (VDict cfg)
    /\ forall k, cfg !! k = match kv !! k with
                            | Some v => Some v
                            | None => (list_to_map items : gmap string value) !! k
                            end.
Proof.
  revert kv. induction items as [|[k0 v0] items IH]; intros kv.
  - exists kv. split; [done|]. intros k. simpl.
    rewrite lookup_empty. by destruct (kv !! k).
  - simpl. destruct (kv !! k0) as [v|] eqn:Hk0.
    + rewrite bool_decide_true by by eexists. simpl.
      destruct (IH kv) as (cfg & Hfill & Hcfg). exists cfg. split; [done|].
      intros k. rewrite Hcfg. destruct (kv !! k) eqn:Hk; [done|].
      rewrite lookup_insert_ne; [done|]. intros ->. congruence.
    + rewrite bool_decide_false by (by intros [? ?]). simpl.
      destruct (IH (<[k0 := v0]> kv)) as (cfg & Hfill & Hcfg).
      exists cfg. split; [done|].
      intros k. rewrite Hcfg. destruct (decide (k0 = k)) as [->|Hne].
      * by rewrite !lookup_insert_eq, Hk0.
      * by rewrite !lookup_insert_ne by done.
Qed.



Lemma fill_default : fill default_items default_config = Ok default_config.
Proof.
  destruct (fill_dict default_items (list_to_map default_items))
    as (cfg & Hcfg & Hlook).
  unfold default_config. rewrite Hcfg. do 2 f_equal. apply map_eq. intros k.
  rewrite Hlook. by destruct (_ !! k).
Qed.

Lemma load_existing fs (content : result value) :
  dir_exists fs = true -> file fs = Some content ->
  _load_config fs
  = (match bind content (fill default_items) with
     | Ok config => Ok config
     | Raise _ => Ok default_config
     end, fs).
Proof.
  intros Hdir Hfile. unfold _load_config. rewrite Hdir.
  rewrite (with_dir_id fs Hdir), Hfile. by destruct (bind _ _).
Qed.

(** [_load_config], with the file looked at before the directory is
    marked as existing. *)
Lemma load_unfold fs :
  _load_config fs
  = match (if dir_exists fs then Ok tt else makedirs fs) with
    | Raise e => (Raise e, fs)
    | Ok _ =>
        match file fs with
        | None =>
            match write_json default_config (with_dir fs) with
            | (Raise e, fs') => (Raise e, fs')
            | (Ok _, fs') => (Ok default_config, fs')
            end
        | Some content =>
            match bind content (fill default_items) with
            | Ok config => (Ok config, with_dir fs)
            | Raise _ => (Ok default_config, with_dir fs)
            end
        end
    end.
Proof. reflexivity. Qed.


(** X23. Loading a file that holds a JSON object keeps every key of the
    file with the file's value and adds each missing top-level key with
    its default; the merge is shallow (a [models] object of the file is
    taken as it is) and the file is not written. *)
Theorem load_keeps_the_file_and_adds_defaults fs kv :
  dir_exists fs = true -> file fs = Some (Ok (VDict kv)) ->
  exists cfg,
    _load_config fs = (Ok (VDict cfg), fs)
    /\ forall k, cfg !! k
                 = match kv !! k with
                   | Some v => Some v
                   | None => (list_to_map default_items : gmap string value) !! k
                   end.
Proof.
  intros Hdir Hfile. unfold _load_config. rewrite Hdir.
  rewrite (with_dir_id fs Hdir), Hfile. unfold bind.
  destruct (fill_dict default_items kv) as (cfg & Hcfg & Hlook).
  exists cfg. by rewrite Hcfg.
Qed.


(** X25. Loading raises in two cases only: the directory is missing and
    cannot be made, or the file is missing and cannot be created (it cannot
    be opened for writing, or writing the default configuration into it
    breaks off). In both the exception is the one of the failed call. *)
Theorem load_raises_only_when_nothing_can_be_created fs e :
  (exists fs', _load_config fs = (Raise e, fs'))
  <-> (dir_exists fs = false /\ makedirs fs = Raise e)
      \/ ((dir_exists fs = true \/ exists u, makedirs fs = Ok u)
          /\ file fs = None
          /\ (open_w fs = Raise e
              \/ ((exists u, open_w fs = Ok u)
                  /\ json_dump fs default_config = Raise e))).
Proof.
  rewrite load_unfold. unfold write_json.
  change (open_w (with_dir fs)) with (open_w fs).
  change (json_dump (with_dir fs)) with (json_dump fs).
  destruct (dir_exists fs) eqn:Hd;
    [|destruct (makedirs fs) as [[]|e0] eqn:Hmk;
      [|split;
        [intros [fs' [= <-]]; by left
        |intros [[? ?]|([?|[? ?]] & _)]; simplify_eq; eauto]]];
    (destruct (file fs) as [content|] eqn:Hf;
     [destruct (bind content _)
     |destruct (open_w fs) as [[]|e1] eqn:Ho;
      [destruct (json_dump fs default_config) as [[]|e2] eqn:Hj|]]);
    (split;
     [intros [fs' Hload]; simplify_eq; eauto 10
     |intros [[? ?]|(? & ? & [?|[[? ?] ?]])]; simplify_eq; eauto]).
Qed.

(** X26. The first load, with no file yet, writes the default
    configuration to the file and returns it; loading again reads the
    same configuration back and writes nothing. When the write breaks off
    after the file was opened, the load raises and leaves the truncated
    file. *)
Theorem first_load_creates_the_file fs (u : unit) :
  dir_exists fs = true -> file fs = None -> open_w fs = Ok u ->
  (forall u' : unit,
     json_dump fs default_config = Ok u' ->
     _load_config fs = (Ok default_config, with_file default_config fs)
     /\ _load_config (with_file default_config fs)
        = (Ok default_config, with_file default_config fs))
  /\ (forall e,
        json_dump fs default_config = Raise e ->
        _load_config fs
        = (Raise e, with_content (torn fs default_config) fs)).
Proof.
  intros Hdir Hfile Hopen. split.
  - intros u' Hdump. split.
    + unfold _load_config. rewrite Hdir. rewrite (with_dir_id fs Hdir), Hfile.
      by rewrite (write_json_whole default_config fs u u').
    + rewrite (load_existing (with_file default_config fs) (Ok default_config))
        by done.
      unfold bind. by rewrite fill_default.
  - intros e Hdump.
    unfold _load_config. rewrite Hdir. rewrite (with_dir_id fs Hdir), Hfile.
    by rewrite (write_json_torn default_config fs u e).
Qed.


(** X28. [set_model_config] followed by [get_model_config] of the same
    name gives the entry back, whether or not the configuration had a
    [models] object; the other entries and the other settings are as
    before, and the call returns whatever happens to the file: the file
    holds the new configuration when it was written whole, is left
    truncated when the write broke off after it was opened, and is
    unchanged when it could not be opened. *)
Theorem set_then_get_model_config (name : string) (entry : value) kv fs :
  match kv !! "models" with
  | None | Some (VDict _) => True
  | Some _ => False
  end ->
  exists cfg,
    set_model_config name entry (VDict kv) fs
    = Ok (VDict cfg, save_config (VDict cfg) fs)
    /\ get_model_config name (VDict cfg) = Ok entry
    /\ (forall other, other <> name ->
          get_model_config other (VDict cfg)
          = get_model_config other (VDict kv))
    /\ (forall k, k <> "models" -> cfg !! k = kv !! k)
    /\ (forall u u' : unit,
          open_w fs = Ok u -> json_dump fs (VDict cfg) = Ok u' ->
          file (save_config (VDict cfg) fs) = Some (Ok (VDict cfg)))
    /\ (forall (u : unit) e,
          open_w fs = Ok u -> json_dump fs (VDict cfg) = Raise e ->
          file (save_config (VDict cfg) fs) = Some (torn fs (VDict cfg)))
    /\ (forall e, open_w fs = Raise e -> save_config (VDict cfg) fs = fs).
Proof.
  intros Hmodels.
  assert (forall cfg,
            (forall u u' : unit,
               open_w fs = Ok u -> json_dump fs (VDict cfg) = Ok u' ->
               file (save_config (VDict cfg) fs) = Some (Ok (VDict cfg)))
            /\ (forall (u : unit) e,
                  open_w fs = Ok u -> json_dump fs (VDict cfg) = Raise e ->
                  file (save_config (VDict cfg) fs)
                  = Some (torn fs (VDict cfg)))
            /\ (forall e, open_w fs = Raise e ->
                  save_config (VDict cfg) fs = fs)) as Hsave.
  { intros cfg. unfold save_config. split; [|split].
    - intros u u' Ho Hd. by rewrite (write_json_whole _ fs u u').
    - intros u e Ho Hd. by rewrite (write_json_torn _ fs u e).
    - intros e Ho. by rewrite (write_json_closed _ fs e). }
  unfold set_model_config. simpl.
  destruct (kv !! "models") as [[| | | | | |ms]|] eqn:Hm; try done.
  - rewrite bool_decide_true by by eexists. simpl. rewrite Hm. simpl.
    eexists. split; [done|]. split; [|split; [|split; [|apply Hsave]]].
    + unfold get_model_config. simpl.
      by rewrite lookup_insert_eq; simpl; rewrite lookup_insert_eq.
    + intros other Hne. unfold get_model_config. simpl.
      rewrite lookup_insert_eq, Hm. simpl. by rewrite lookup_insert_ne.
    + intros k Hk. by rewrite lookup_insert_ne.
  - rewrite bool_decide_false by (by intros [? ?]). simpl.
    rewrite lookup_insert_eq. simpl.
    eexists. split; [done|]. split; [|split; [|split; [|apply Hsave]]].
    + unfold get_model_config. simpl.
      by rewrite lookup_insert_eq; simpl; rewrite lookup_insert_eq.
    + intros other Hne. unfold get_model_config. simpl.
      rewrite lookup_insert_eq, Hm. simpl.
      by rewrite lookup_insert_ne, lookup_empty.
    + intros k Hk. by rewrite !lookup_insert_ne.
Qed.

(** *** Witnesses *)

Lemma load_keeps_the_file_and_adds_defaults_witness :
  exists cfg,
    _load_config (files (Some (Ok (VDict sparse_file))))
    = (Ok (VDict cfg), files (Some (Ok (VDict sparse_file))))
    /\ cfg !! "default_model" = Some (VStr "qwen")
    /\ cfg !! "models" = Some (VDict ∅)
    /\ cfg !! "max_history" = Some (VInt 10).
Proof.
  destruct (load_keeps_the_file_and_adds_defaults
              (files (Some (Ok (VDict sparse_file)))) sparse_file
              eq_refl eq_refl) as (cfg & Hload & Hlook).
  exists cfg. split; [exact Hload|]. rewrite !Hlook.
  split; [reflexivity|]. split; reflexivity.
Defined.


Lemma first_load_creates_the_file_witness :
  _load_config (files None) = (Ok default_config, files (Some (Ok default_config)))
  /\ _load_config (full_disk None)
     = (Raise "[Errno 28] No space left on device",
        full_disk (Some (Raise fixtures.no_json))).
Proof.
  split.
  - exact (proj1 (proj1 (first_load_creates_the_file (files None) ()
                           eq_refl eq_refl eq_refl) () eq_refl)).
  - exact (proj2 (first_load_creates_the_file (full_disk None) ()
                    eq_refl eq_refl eq_refl) _ eq_refl).
Defined.


Lemma set_then_get_model_config_witness :
  exists cfg,
    set_model_config "openai" (provider "gpt-4" "https://api.openai.com/v1/")
      (VDict sparse_file) (files (Some (Ok (VDict sparse_file))))
    = Ok (VDict cfg, files (Some (Ok (VDict cfg))))
    /\ get_model_config "openai" (VDict cfg)
       = Ok (provider "gpt-4" "https://api.openai.com/v1/").
Proof.
  destruct (set_then_get_model_config "openai"
              (provider "gpt-4" "https://api.openai.com/v1/") sparse_file
              (files (Some (Ok (VDict sparse_file)))) I)
    as (cfg & Hset & Hget & _).
  exists cfg. split; [exact Hset|exact Hget].
Defined.

End config_file_facts.
